(** * fast_ecomm: product catalogue service

    A shallow embedding of

    - [schema/product.py]         (pydantic models, validators, derived fields),
    - [services/serve_product.py] (the JSON-file store and its operations),
    - [main.py]                   (the route handlers that call the store),

    followed by the properties of the update, delete, create and merge
    operations, of the derived fields and of the seller e-mail allow-list.

    Python values are modelled as JSON trees, [dict]s as association lists
    in insertion order, [float]s as IEEE-754 binary64 numbers, the data
    file as explicit state, and exceptions as an error result. *)

From Stdlib Require Import ZArith QArith List String Ascii Bool Lia.
From Stdlib Require Import Permutation.
From Corelib Require Import SpecFloat.
Import ListNotations.

Set Implicit Arguments.
Set Warnings "-register-all".


Local Open Scope string_scope.
Local Open Scope Z_scope.
Local Open Scope list_scope.

(** ** Python runtime values *)

Module Py.

(** *** Floats: IEEE-754 binary64, as CPython's [float] *)

Definition prec : Z := 53.
Definition emax : Z := 1024.

Definition float : Type := spec_float.

Definition fmul : float -> float -> float := SFmul prec emax.
Definition fdiv : float -> float -> float := SFdiv prec emax.
Definition fsub : float -> float -> float := SFsub prec emax.
Definition fleb : float -> float -> bool := SFleb.
Definition feqb : float -> float -> bool := SFeqb.

(** An [int] operand of a float operation is converted to the nearest
    float first. *)
Definition of_Z (z : Z) : float := binary_normalize prec emax z 0 false.

(** The decimal literal [n/100] read as a float: the nearest binary64. *)
Definition decimal2 (n : Z) : float := fdiv (of_Z n) (of_Z 100).

(** The exact rational value of a finite float. *)
Definition to_Q (x : float) : Q :=
  match x with
  | S754_finite s m e =>
      let v := cond_Zopp s (Zpos m) in
      match e with
      | Zneg p => Qmake v (2 ^ p)
      | _ => inject_Z (v * 2 ^ e)
      end
  | _ => 0%Q
  end.

(** Nearest integer to [n / d], ties to the even one ([0 <= n], [0 < d]). *)
Definition round_half_even (n d : Z) : Z :=
  let q := n / d in
  let r := n mod d in
  match 2 * r ?= d with
  | Lt => q
  | Gt => q + 1
  | Eq => if Z.even q then q else q + 1
  end.

(** The absolute value [m * 2^e] of a finite float, scaled by
    [10^ndigits] and rounded to the nearest integer, ties to even. *)
Definition scaled_digits (m : positive) (e : Z) (ndigits : Z) : Z :=
  let scale := 10 ^ ndigits in
  match e with
  | Zneg p => round_half_even (Zpos m * scale) (2 ^ Zpos p)
  | _ => Zpos m * scale * 2 ^ e
  end.

(** [round(x, ndigits)] for [0 <= ndigits]: CPython prints the exact
    binary value of [x] correctly rounded (ties to even) to [ndigits]
    decimals and reads the decimal string back as the nearest float;
    infinities and NaN round to themselves, and the sign of [x] is kept. *)
Definition round (x : float) (ndigits : Z) : float :=
  match x with
  | S754_finite s m e =>
      match scaled_digits m e ndigits with
      | Zpos k =>
          fdiv (S754_finite s k 0) (S754_finite false (Z.to_pos (10 ^ ndigits)) 0)
      | _ => S754_zero s
      end
  | _ => x
  end.

(** *** Association lists with [dict] semantics *)

Section Assoc.
Variable V : Type.

Definition alist : Type := list (string * V).

(** [d.get(k)]: [None] when [k] is not a key. *)
Fixpoint dict_get (k : string) (d : alist) : option V :=
  match d with
  | [] => None
  | (k', v) :: rest => if String.eqb k k' then Some v else dict_get k rest
  end.

(** [d[k] = v]: an existing key keeps its position, a new key goes last. *)
Fixpoint dict_set (k : string) (v : V) (d : alist) : alist :=
  match d with
  | [] => [(k, v)]
  | (k', v') :: rest =>
      if String.eqb k k' then (k', v) :: rest else (k', v') :: dict_set k v rest
  end.

(** [d.update(u)]: the items of [u] are assigned in order. *)
Definition dict_update (d u : alist) : alist :=
  fold_left (fun acc kv => dict_set (fst kv) (snd kv) acc) u d.

Definition keys (d : alist) : list string := map fst d.

Fixpoint unique_keys (ks : list string) : bool :=
  match ks with
  | [] => true
  | k :: rest => negb (existsb (String.eqb k) rest) && unique_keys rest
  end.

End Assoc.

(** *** JSON trees *)

Inductive json : Type :=
| JNull
| JBool (b : bool)
| JInt (z : Z)
| JFloat (f : float)
| JStr (s : string)
| JList (l : list json)
| JDict (d : list (string * json)).

Definition pydict : Type := alist json.

(** Every [dict] of a value has pairwise distinct keys. *)
Fixpoint well_formed (v : json) : bool :=
  match v with
  | JList l => forallb well_formed l
  | JDict d =>
      unique_keys (map fst d) && forallb (fun kv => well_formed (snd kv)) d
  | _ => true
  end.

Definition dict_wf (d : pydict) : bool := well_formed (JDict d).

(** Exact comparison of a float with an integer. *)
Definition float_eq_Z (f : float) (z : Z) : bool :=
  match f with
  | S754_zero _ => z =? 0
  | S754_finite s m e =>
      let v := cond_Zopp s (Zpos m) in
      match e with
      | Zneg p => z * 2 ^ Zpos p =? v
      | _ => z =? v * 2 ^ e
      end
  | _ => false
  end.

Inductive number : Type :=
| NInt (z : Z)
| NFloat (f : float).

(** [bool] is a subtype of [int]: [True == 1]. *)
Definition as_number (v : json) : option number :=
  match v with
  | JBool b => Some (NInt (if b then 1 else 0))
  | JInt z => Some (NInt z)
  | JFloat f => Some (NFloat f)
  | _ => None
  end.

Definition number_eq (a b : number) : bool :=
  match a, b with
  | NInt x, NInt y => x =? y
  | NInt x, NFloat g => float_eq_Z g x
  | NFloat f, NInt y => float_eq_Z f y
  | NFloat f, NFloat g => feqb f g
  end.

(** [a == b] on JSON values held by distinct objects: numbers compare by
    value, strings and lists element-wise, dicts key by key whatever the
    order, and values of different kinds are unequal. *)
Fixpoint py_eq (a b : json) {struct a} : bool :=
  match a, b with
  | JNull, JNull => true
  | JStr s, JStr t => String.eqb s t
  | JList l, JList l' =>
      (fix all2 (xs ys : list json) {struct xs} : bool :=
         match xs, ys with
         | [], [] => true
         | x :: xs', y :: ys' => py_eq x y && all2 xs' ys'
         | _, _ => false
         end) l l'
  | JDict d, JDict d' =>
      Nat.eqb (List.length d) (List.length d') &&
      (fix all (items : list (string * json)) {struct items} : bool :=
         match items with
         | [] => true
         | (k, v) :: rest =>
             match dict_get k d' with
             | Some v' => py_eq v v'
             | None => false
             end && all rest
         end) d
  | JNull, _ | JStr _, _ | JList _, _ | JDict _, _ => false
  | _, _ =>
      match as_number a, as_number b with
      | Some x, Some y => number_eq x y
      | _, _ => false
      end
  end.

(** *** Strings *)

(** [s.split(sep)] for a one-character separator: the pieces between the
    occurrences of [sep], never an empty list. *)
Fixpoint split (sep : ascii) (s : string) : list string :=
  match s with
  | EmptyString => [EmptyString]
  | String c rest =>
      if Ascii.eqb c sep then EmptyString :: split sep rest
      else match split sep rest with
           | piece :: pieces => String c piece :: pieces
           | [] => [String c EmptyString]
           end
  end.

(** [l[-1]] on a list of strings that is not empty. *)
Definition item_last (l : list string) : string := List.last l EmptyString.

(** [x in s] for a set of strings. *)
Definition set_mem (x : string) (s : list string) : bool :=
  existsb (String.eqb x) s.

(** [needle in haystack] for two strings. *)
Fixpoint contains (needle haystack : string) : bool :=
  String.prefix needle haystack ||
  match haystack with
  | EmptyString => false
  | String _ rest => contains needle rest
  end.

(** The items [for x in v] visits: those of a list, the characters of a
    string, the keys of a dict; anything else is not iterable. *)
Definition iterate (v : json) : option (list json) :=
  match v with
  | JList l => Some l
  | JStr s => Some (map (fun c => JStr (String c EmptyString)) (list_ascii_of_string s))
  | JDict d => Some (map (fun item => JStr (fst item)) d)
  | _ => None
  end.

(** [l[start:stop]] for [0 <= start <= stop]. *)
Definition slice {A : Type} (l : list A) (start stop : nat) : list A :=
  firstn (stop - start) (skipn start l).

(** *** Model fields *)

(** A field with a default is either left unset by the caller or given. *)
Inductive field (A : Type) : Type :=
| Unset
| Given (v : A).

Arguments Unset {A}.
Arguments Given {A} v.

(** The attribute read from the object: the default when unset. *)
Definition attr {A : Type} (default : A) (f : field A) : A :=
  match f with
  | Unset => default
  | Given v => v
  end.

(** Serialisation of field values in JSON mode. *)
Definition ser_opt {A : Type} (ser : A -> json) (v : option A) : json :=
  match v with
  | Some x => ser x
  | None => JNull
  end.

Definition ser_float (f : float) : json := JFloat f.

Definition ser_tags (l : list string) : json := JList (map JStr l).

(** A field that is always dumped, and one dumped only when it was set
    ([exclude_unset=True]). *)
Definition entry (k : string) (v : json) : list (string * json) := [(k, v)].

Definition entry_if_set {A : Type} (k : string) (ser : A -> json) (f : field A)
  : list (string * json) :=
  match f with
  | Given v => [(k, ser v)]
  | Unset => []
  end.

(** *** Exceptions and results *)

(** The text of an f-string: literal pieces and formatted values. *)
Inductive piece : Type :=
| Lit (s : string)
| Fmt (v : json).

Definition text : Type := list piece.

Inductive exn : Type :=
| ValueError (msg : text)
| KeyError (key : string)
| IndexError
| TypeError
| AttributeError
| HTTPException (status_code : Z) (detail : text).

Inductive outcome (A : Type) : Type :=
| Return (a : A)
| Raise (e : exn).

Arguments Return {A} a.
Arguments Raise {A} e.

Definition obind {A B : Type} (c : outcome A) (k : A -> outcome B) : outcome B :=
  match c with
  | Return a => k a
  | Raise e => Raise e
  end.

(** [d[k]]: [KeyError] when [k] is not a key. *)
Definition subscript (d : pydict) (k : string) : outcome json :=
  match dict_get k d with
  | Some v => Return v
  | None => Raise (KeyError k)
  end.

(** *** Lists *)

(** [enumerate(l)]. *)
Definition enumerate {A : Type} (l : list A) : list (nat * A) :=
  combine (seq 0 (List.length l)) l.

(** [l.pop(idx)]: the item and the list without it. *)
Definition list_pop {A : Type} (l : list A) (idx : nat) : outcome (A * list A) :=
  match nth_error l idx with
  | Some x => Return (x, firstn idx l ++ skipn (S idx) l)
  | None => Raise IndexError
  end.

(** [l[idx] = x]. *)
Definition list_assign {A : Type} (l : list A) (idx : nat) (x : A)
  : outcome (list A) :=
  match nth_error l idx with
  | Some _ => Return (firstn idx l ++ x :: skipn (S idx) l)
  | None => Raise IndexError
  end.

(** *** The data file as state *)

(** [None]: the data file does not exist; [Some products]: it holds the
    JSON list [products].  [json.dump] followed by [json.load] gives the
    value back, so the file is modelled by the value it holds. *)
Definition fs : Type := option (list pydict).

Definition M (A : Type) : Type := fs -> outcome A * fs.

Definition ret {A : Type} (a : A) : M A := fun s => (Return a, s).

Definition raise {A : Type} (e : exn) : M A := fun s => (Raise e, s).

Definition bind {A B : Type} (c : M A) (k : A -> M B) : M B :=
  fun s =>
    match c s with
    | (Return a, s') => k a s'
    | (Raise e, s') => (Raise e, s')
    end.

Definition lift {A : Type} (c : outcome A) : M A := fun s => (c, s).

(** [try: c except ValueError as e: h(str(e))]. *)
Definition except_ValueError {A : Type} (c : M A) (h : text -> M A) : M A :=
  fun s =>
    match c s with
    | (Raise (ValueError msg), s') => h msg s'
    | r => r
    end.

End Py.

Declare Scope py_scope.
Delimit Scope py_scope with py.
Notation "x <- c ;; k" := (Py.bind c (fun x => k))
  (at level 61, c at next level, right associativity) : py_scope.
Notation "c ;;; k" := (Py.bind c (fun _ => k))
  (at level 61, right associativity) : py_scope.

Import Py.
Local Open Scope py_scope.

(** ** schema/product.py *)

Module Schema.

(** A UUID, held by its canonical 36-character text; [str(u)] gives it. *)
Inductive UUID : Type := uuid (canonical : string).

Definition str (u : UUID) : string :=
  match u with uuid s => s end.

Inductive Currency : Type := USD | EUR | INR | GBP.

Definition currency_str (c : Currency) : string :=
  match c with
  | USD => "USD"
  | EUR => "EUR"
  | INR => "INR"
  | GBP => "GBP"
  end.

(** [min_length <= len(s) <= max_length] and [ge=0] of [Field];
    [String.length] counts bytes, which are the characters [len] counts
    on ASCII text.  The syntax checks pydantic makes on UUIDs, e-mail
    addresses and URLs before the validators below run are left out: a
    value of these types is held as the text the library has accepted. *)
Definition len_between (lo hi : nat) (s : string) : bool :=
  Nat.leb lo (String.length s) && Nat.leb (String.length s) hi.

Definition ge0 (x : float) : bool := fleb (of_Z 0) x.

Definition opt_ok {A : Type} (ok : A -> bool) (v : option A) : bool :=
  match v with
  | Some x => ok x
  | None => true
  end.

(** [(discount_percent / 100) * price], then [round(price - amount, 2)]. *)
Definition discounted (price discount_percent : float) : float :=
  let discount_amount := fmul (fdiv discount_percent (of_Z 100)) price in
  round (fsub price discount_amount) 2.

(** The body shared by both [check_discount] model validators. *)
Definition discount_in_range (discount_percent : option float) : bool :=
  match discount_percent with
  | Some d => fleb (of_Z 0) d && fleb d (of_Z 100)
  | None => true
  end.

Definition discount_message : text :=
  [Lit "discount_percent must be between 0 and 100"].

(** The allow-list as the source writes it: no comma separates the third
    and the fourth literal, and Python joins adjacent string literals. *)
Definition allowed_domains : list string :=
  [ "example.com";
    "shop.com";
    ("dellexclusive.in"
     ++ "ecommerce.com")%string;
    "mistore.in";
    "realmeofficial.in";
    "applestoreindia.in";
    "samsungshop.in";
    "oneplusstore.in";
    "nokiaofficial.in";
    "lgshop.in";
    "sonyofficial.in";
    "htcofficial.in";
    "motorolaofficial.in";
    "asusofficial.in";
    "dellstore.in";
    "hpstore.in";
    "lenovostore.in";
    "acerstore.in";
    "microsoftstore.in";
    "xiaomiofficial.in";
    "realme.com";
    "apple.com";
    "samsung.com";
    "oneplus.com";
    "nokia.com" ].

Definition domain_message (domain : string) : text :=
  [Lit "Email domain '"; Fmt (JStr domain); Lit "' is not allowed for sellers."].

Module Seller.

Record t : Type := {
  seller_id : UUID;
  name : string;
  email : string;
  website : string
}.

Definition allowed_domains : list string := Schema.allowed_domains.

Definition validate_seller_email_domain (value : string) : outcome string :=
  let domain := item_last (split "@"%char value) in
  if negb (set_mem domain allowed_domains)
  then Raise (ValueError (domain_message domain))
  else Return value.

Definition fields_ok (s : t) : bool := len_between 1 50 (name s).

Definition model_dump (s : t) : pydict :=
  [ ("seller_id", JStr (str (seller_id s)));
    ("name", JStr (name s));
    ("email", JStr (email s));
    ("website", JStr (website s)) ].

End Seller.

Module UpdateSeller.

Definition allowed_domains : list string := Schema.allowed_domains.

Definition validate_seller_email_domain (value : string) : outcome string :=
  let domain := item_last (split "@"%char value) in
  if negb (set_mem domain allowed_domains)
  then Raise (ValueError (domain_message domain))
  else Return value.

End UpdateSeller.

Module Dimensions_cm.

Record t : Type := {
  length : float;
  width : float;
  height : float
}.

Definition fields_ok (d : t) : bool :=
  ge0 (length d) && ge0 (width d) && ge0 (height d).

Definition model_dump (d : t) : pydict :=
  [ ("length", ser_float (length d));
    ("width", ser_float (width d));
    ("height", ser_float (height d)) ].

(** [round(length * width * height, 2)]. *)
Definition volume (d : t) : float :=
  round (fmul (fmul (length d) (width d)) (height d)) 2.

End Dimensions_cm.

Module Product.

(** Field values are held in the form [model_dump(mode="json")] gives
    them: URLs, e-mail addresses and timestamps as their text. *)
Record t : Type := {
  id : UUID;
  sku : string;
  name : string;
  description : option string;
  category : string;
  brand : option string;
  price : float;
  currency : Currency;
  discount_percent : option float;
  stock : Z;
  is_active : bool;
  rating : option float;
  tags : option (list string);
  image_url : option string;
  dimensions_cm : Dimensions_cm.t;
  seller : Seller.t;
  created_at : string
}.

Definition check_discount (self : t) : outcome t :=
  if negb (discount_in_range (discount_percent self))
  then Raise (ValueError discount_message)
  else Return self.

Definition discounted_price (self : t) : option float :=
  match discount_percent self with
  | Some d => Some (discounted (price self) d)
  | None => None
  end.

Definition volume_cm3 (self : t) : float :=
  Dimensions_cm.volume (dimensions_cm self).

(** The constraints the [Field] declarations put on each attribute. *)
Definition fields_ok (p : t) : bool :=
  len_between 8 20 (sku p) &&
  len_between 1 50 (name p) &&
  opt_ok (len_between 0 500) (description p) &&
  len_between 1 30 (category p) &&
  opt_ok (len_between 0 30) (brand p) &&
  ge0 (price p) &&
  opt_ok ge0 (discount_percent p) &&
  (0 <=? stock p) &&
  opt_ok (fun r => ge0 r && fleb r (of_Z 5)) (rating p) &&
  Dimensions_cm.fields_ok (dimensions_cm p) &&
  Seller.fields_ok (seller p).

(** An object the validator has accepted. *)
Definition validated (p : t) : bool :=
  fields_ok p &&
  match Seller.validate_seller_email_domain (Seller.email (seller p)) with
  | Return _ => true
  | Raise _ => false
  end &&
  match check_discount p with
  | Return _ => true
  | Raise _ => false
  end.

(** [model_dump(mode="json")]: the fields in declaration order, then the
    computed fields. *)
Definition model_dump (p : t) : pydict :=
  [ ("id", JStr (str (id p)));
    ("sku", JStr (sku p));
    ("name", JStr (name p));
    ("description", ser_opt JStr (description p));
    ("category", JStr (category p));
    ("brand", ser_opt JStr (brand p));
    ("price", ser_float (price p));
    ("currency", JStr (currency_str (currency p)));
    ("discount_percent", ser_opt ser_float (discount_percent p));
    ("stock", JInt (stock p));
    ("is_active", JBool (is_active p));
    ("rating", ser_opt ser_float (rating p));
    ("tags", ser_opt ser_tags (tags p));
    ("image_url", ser_opt JStr (image_url p));
    ("dimensions_cm", JDict (Dimensions_cm.model_dump (dimensions_cm p)));
    ("seller", JDict (Seller.model_dump (seller p)));
    ("created_at", JStr (created_at p));
    ("discounted_price", ser_opt ser_float (discounted_price p));
    ("volume_cm3", ser_float (volume_cm3 p)) ].

Section Tags.

(** [str.strip] is the runtime's. *)
Variable strip : string -> string.

(** The "before" validator of [tags]: a string is cut at its commas. *)
Definition split_tags (v : json) : json :=
  match v with
  | JStr s => JList (map (fun tag => JStr (strip tag)) (split ","%char s))
  | _ => v
  end.

End Tags.

End Product.

Module Update_Product.

(** [id] is required; [name], [category], [price], [currency], [stock],
    [dimensions_cm] and [seller] are required but may be null; the other
    fields have a default and may be left unset.  The default of
    [created_at] is the factory [datetime], whose call raises: see
    [built].  There is no [sku]. *)
Record t : Type := {
  id : UUID;
  name : option string;
  description : field (option string);
  category : option string;
  brand : field (option string);
  price : option float;
  currency : option Currency;
  discount_percent : field (option float);
  stock : option Z;
  is_active : field (option bool);
  rating : field (option float);
  tags : field (option (list string));
  image_url : field (option string);
  dimensions_cm : option Dimensions_cm.t;
  seller : option Seller.t;
  created_at : field (option string)
}.

Definition check_discount (self : t) : outcome t :=
  if negb (discount_in_range (attr None (discount_percent self)))
  then Raise (ValueError discount_message)
  else Return self.

(** [self.price] may be [None] here: the product then raises. *)
Definition discounted_price (self : t) : outcome (option float) :=
  match attr None (discount_percent self) with
  | Some d =>
      match price self with
      | Some p => Return (Some (discounted p d))
      | None => Raise TypeError
      end
  | None => Return None
  end.

(** [self.dimensions_cm] may be [None] here: the attribute access then
    raises. *)
Definition volume_cm3 (self : t) : outcome float :=
  match dimensions_cm self with
  | Some d => Return (Dimensions_cm.volume d)
  | None => Raise AttributeError
  end.

Definition fields_ok (u : t) : bool :=
  opt_ok (len_between 1 50) (name u) &&
  opt_ok (len_between 0 500) (attr None (description u)) &&
  opt_ok (len_between 1 30) (category u) &&
  opt_ok (len_between 0 30) (attr None (brand u)) &&
  opt_ok ge0 (price u) &&
  opt_ok ge0 (attr None (discount_percent u)) &&
  opt_ok (fun n => 0 <=? n) (stock u) &&
  opt_ok (fun r => ge0 r && fleb r (of_Z 5)) (attr None (rating u)) &&
  opt_ok Dimensions_cm.fields_ok (dimensions_cm u) &&
  opt_ok Seller.fields_ok (seller u).

(** [created_at] is declared with [default_factory=datetime], and
    [datetime()] without arguments raises [TypeError]: the class builds
    an object only from a request that gives [created_at], a timestamp
    or null. *)
Definition built (u : t) : bool :=
  match created_at u with
  | Given _ => true
  | Unset => false
  end.

Definition validated (u : t) : bool :=
  built u &&
  fields_ok u &&
  opt_ok (fun s =>
            match Seller.validate_seller_email_domain (Seller.email s) with
            | Return _ => true
            | Raise _ => false
            end) (seller u) &&
  match check_discount u with
  | Return _ => true
  | Raise _ => false
  end.

(** The fields of [model_dump(mode="json", exclude_unset=True)], in
    declaration order: a field with a default only when it was set. *)
Definition dump_fields (u : t) : pydict :=
  entry "id" (JStr (str (id u))) ++
  entry "name" (ser_opt JStr (name u)) ++
  entry_if_set "description" (ser_opt JStr) (description u) ++
  entry "category" (ser_opt JStr (category u)) ++
  entry_if_set "brand" (ser_opt JStr) (brand u) ++
  entry "price" (ser_opt ser_float (price u)) ++
  entry "currency" (ser_opt (fun c => JStr (currency_str c)) (currency u)) ++
  entry_if_set "discount_percent" (ser_opt ser_float) (discount_percent u) ++
  entry "stock" (ser_opt JInt (stock u)) ++
  entry_if_set "is_active" (ser_opt JBool) (is_active u) ++
  entry_if_set "rating" (ser_opt ser_float) (rating u) ++
  entry_if_set "tags" (ser_opt ser_tags) (tags u) ++
  entry_if_set "image_url" (ser_opt JStr) (image_url u) ++
  entry "dimensions_cm"
    (ser_opt (fun d => JDict (Dimensions_cm.model_dump d)) (dimensions_cm u)) ++
  entry "seller" (ser_opt (fun s => JDict (Seller.model_dump s)) (seller u)) ++
  entry_if_set "created_at" (ser_opt JStr) (created_at u).

(** The computed fields follow the fields, and are evaluated whatever
    was set; an exception from a property ends the dump. *)
Definition model_dump_exclude_unset (u : t) : outcome pydict :=
  obind (discounted_price u) (fun dp =>
  obind (volume_cm3 u) (fun vol =>
  Return (dump_fields u ++
          [ ("discounted_price", ser_opt ser_float dp);
            ("volume_cm3", ser_float vol) ]))).

Section Tags.

Variable strip : string -> string.

Definition split_tags (v : json) : json :=
  match v with
  | JStr s => JList (map (fun tag => JStr (strip tag)) (split ","%char s))
  | _ => v
  end.

End Tags.

End Update_Product.

End Schema.

(** ** services/serve_product.py *)

Module Service.

Definition load_products : M (list pydict) :=
  fun s =>
    match s with
    | None => (Return [], s)
    | Some products => (Return products, s)
    end.

Definition get_all_products : M (list pydict) := load_products.

Definition save_products (products : list pydict) : M unit :=
  fun _ => (Return tt, Some products).

(** [any(p["sku"]==product["sku"] for p in products)]: the generator
    stops at the first true comparison. *)
Fixpoint any_same_sku (products : list pydict) (product : pydict) : outcome bool :=
  match products with
  | [] => Return false
  | p :: rest =>
      obind (subscript p "sku") (fun a =>
      obind (subscript product "sku") (fun b =>
      if py_eq a b then Return true else any_same_sku rest product))
  end.

Definition sku_exists (sku : json) : text :=
  [Lit "Product with SKU "; Fmt sku; Lit " already exists."].

Definition add_product (product : pydict) : M pydict :=
  products <- get_all_products ;;
  found <- lift (any_same_sku products product) ;;
  if found : bool then
    sku <- lift (subscript product "sku") ;;
    raise (ValueError (sku_exists sku))
  else
    save_products (products ++ [product]) ;;;
    ret product.

Definition deleted_response (deleted : pydict) : json :=
  JDict [ ("message", JStr "Product deleted succesfully");
          ("product", JDict deleted) ].

(** The loop of [remove_product] over the pairs still to visit; when it
    runs out the function ends without a [return] and gives [None]. *)
Fixpoint remove_loop (id : string) (products : list pydict)
  (todo : list (nat * pydict)) : M json :=
  match todo with
  | [] => ret JNull
  | (idx, p) :: todo' =>
      v <- lift (subscript p "id") ;;
      if py_eq v (JStr id) then
        popped <- lift (list_pop products idx) ;;
        save_products (snd popped) ;;;
        ret (deleted_response (fst popped))
      else remove_loop id products todo'
  end.

Definition remove_product (id : string) : M json :=
  products <- get_all_products ;;
  remove_loop id products (enumerate products).

(** One turn of the inner loop of [change_product]. *)
Definition merge_item (product : pydict) (item : string * json) : pydict :=
  let (key, value) := item in
  match value with
  | JNull => product
  | JDict u =>
      match dict_get key product with
      | Some (JDict r) => dict_set key (JDict (dict_update r u)) product
      | _ => dict_set key value product
      end
  | _ => dict_set key value product
  end.

(** The inner loop: [for key, value in update_data.items()]. *)
Definition merge (product update_data : pydict) : pydict :=
  fold_left merge_item update_data product.

Definition id_not_found (id : string) : text :=
  [Lit "Product with id "; Fmt (JStr id); Lit " not found."].

(** The body of the outer loop has no test on [id] and ends in [return]:
    only its first turn ever runs, on the first product of the list. *)
Definition change_product (id : string) (update_data : pydict) : M pydict :=
  products <- get_all_products ;;
  match enumerate products with
  | (index, product) :: _ =>
      let product := merge product update_data in
      products <- lift (list_assign products index product) ;;
      save_products products ;;;
      ret product
  | [] => raise (ValueError (id_not_found id))
  end.

End Service.

(** ** main.py *)

Module Main.

Import Schema.

Definition unavailable : text := [Lit "Product is unavailable."].

Fixpoint find_product (product_id : string) (products : list pydict) : M pydict :=
  match products with
  | [] => raise (HTTPException 404 unavailable)
  | product :: rest =>
      v <- lift (subscript product "id") ;;
      if py_eq v (JStr product_id) then ret product
      else find_product product_id rest
  end.

Definition get_product_by_id (product_id : string) : M pydict :=
  products <- Service.get_all_products ;;
  find_product product_id products.

(** [uuid4] and [utcnow] stand for [uuid4()] and
    [datetime.utcnow().isoformat()], which the handler reads from its
    environment. *)
Definition create_product (product : Product.t) (uuid4 : UUID) (utcnow : string)
  : M pydict :=
  let product_dict := Product.model_dump product in
  let product_dict := dict_set "id" (JStr (str uuid4)) product_dict in
  let product_dict :=
    dict_set "created_at" (JStr (utcnow ++ "Z")%string) product_dict in
  except_ValueError (Service.add_product product_dict)
    (fun e => raise (HTTPException 400 e)) ;;;
  ret (Product.model_dump product).

Definition delete_product (product_id : UUID) : M json :=
  except_ValueError (Service.remove_product (str product_id))
    (fun e => raise (HTTPException 404 e)).

Definition update_product (product_id : UUID) (payload : Update_Product.t)
  : M pydict :=
  except_ValueError
    (update_data <- lift (Update_Product.model_dump_exclude_unset payload) ;;
     Service.change_product (str product_id) update_data)
    (fun e => raise (HTTPException 404 e)).

Definition patch_product (product_id : UUID) (payload : Update_Product.t)
  : M pydict :=
  except_ValueError
    (update_data <- lift (Update_Product.model_dump_exclude_unset payload) ;;
     Service.change_product (str product_id) update_data)
    (fun e => raise (HTTPException 404 e)).

Section Listing.

(** [str.lower], [str.strip] and the call
    [products.sort(key=lambda x: x.get("price", 0), reverse=reverse)],
    which may raise on prices that do not compare, are the runtime's;
    the handler is modelled over them. *)
Variable lower : string -> string.
Variable strip : string -> string.
Variable sort : bool -> list pydict -> outcome (list pydict).

Definition no_product_found (name : string) : text :=
  [Lit "No product found with name="; Fmt (JStr name)].

(** [p.get("name", "").lower()]. *)
Definition lowered_name (p : pydict) : outcome string :=
  match dict_get "name" p with
  | None => Return (lower "")
  | Some (JStr s) => Return (lower s)
  | Some _ => Raise AttributeError
  end.

(** [[p for p in products if link in p.get("name", "").lower()]]. *)
Fixpoint filter_by_name (link : string) (products : list pydict)
  : outcome (list pydict) :=
  match products with
  | [] => Return []
  | p :: rest =>
      obind (lowered_name p) (fun n =>
      obind (filter_by_name link rest) (fun kept =>
      Return (if contains link n then p :: kept else kept)))
  end.

(** [dep] is what [Depends(load_products)] read; [limit] and [offset]
    are the naturals the [Query] bounds let through. *)
Definition list_products (dep : list pydict) (name : option string)
  (sort_by_price : bool) (order : string) (limit offset : nat) : outcome json :=
  obind
    match name with
    | Some (String c rest) =>
        let link := lower (strip (String c rest)) in
        obind (filter_by_name link dep) (fun products =>
        match products with
        | [] => Raise (HTTPException 404 (no_product_found (String c rest)))
        | _ => Return products
        end)
    | _ => Return dep
    end (fun products =>
  obind
    (if sort_by_price
     then sort (String.eqb order "desc") products
     else Return products) (fun products =>
  let total := List.length products in
  let products := slice products offset (offset + limit) in
  Return (JDict [ ("total", JInt (Z.of_nat total));
                  ("items", JList (map JDict products)) ]))).

End Listing.

End Main.

(** ** streamlit_app.py *)

Module Dashboard.

(** What [requests.get] hands back: the status and what
    [response.json()] gives or raises. *)
Record response : Type := {
  status_code : Z;
  body : outcome json
}.

Definition limit : nat := 100.

Section Client.

(** [requests.get(f"{BASE_URL}/products?limit={limit}&offset={offset}")],
    which may raise. *)
Variable get : nat -> nat -> outcome response.

(** The [while True] loop of [get_all_products], [fuel] turns of it at
    most ([None]: more turns are needed).  Whatever is raised inside is
    caught and the function returns the empty list; the messages it
    shows are left out. *)
Fixpoint fetch (fuel : nat) (all_products : list json) (offset : nat)
  : option (list json) :=
  match fuel with
  | O => None
  | S fuel' =>
      match get limit offset with
      | Raise _ => Some []
      | Return response =>
          if status_code response =? 200 then
            match body response with
            | Return (JDict data) =>
                let items :=
                  match dict_get "items" data with
                  | Some v => v
                  | None => JList []
                  end in
                match iterate items with
                | Some visited =>
                    let all_products := all_products ++ visited in
                    if Nat.ltb (List.length visited) limit
                    then Some all_products
                    else fetch fuel' all_products (offset + limit)
                | None => Some []
                end
            | _ => Some []
            end
          else Some []
      end
  end.

Definition get_all_products (fuel : nat) : option (list json) := fetch fuel [] 0%nat.

End Client.

End Dashboard.

(** ** The spec's words, for comparison with the code *)

Module Spec.

(** "price - price x discount_percent / 100", in exact arithmetic. *)
Definition discounted_exact (price discount_percent : Q) : Q :=
  (price - price * discount_percent / 100)%Q.

(** "rounded to 2 decimals": the number of hundredths, for [0 <= q], with
    a tie going to the even neighbour, or up. *)
Definition hundredths_half_even (q : Q) : Z :=
  let c := (q * 100)%Q in
  round_half_even (Qnum c) (Zpos (Qden c)).

Definition hundredths_half_up (q : Q) : Z :=
  let c := (q * 100 + (1 # 2))%Q in
  Qnum c / Zpos (Qden c).

(** "merge recursively field-by-field (U's fields override R's,
    unmentioned nested fields retained from R); otherwise replace
    wholesale": the value of a key of the merged record, from the stored
    value and the non-null value of the payload. *)
Definition merged_value (stored : option json) (value : json) : json :=
  match stored, value with
  | Some (JDict r), JDict u => JDict (dict_update r u)
  | _, _ => value
  end.

(** The same rule read as a function that recurses into every pair of
    objects: a null value of the payload is skipped, an object met by an
    object is merged by the rule itself, anything else replaces. *)
Fixpoint deep_merge_into (u : json) (r : pydict) {struct u} : pydict :=
  match u with
  | JDict items =>
      (fix each (items : list (string * json)) (acc : pydict) {struct items}
         : pydict :=
         match items with
         | [] => acc
         | (key, value) :: rest =>
             each rest
               match value with
               | JNull => acc
               | JDict _ =>
                   match dict_get key acc with
                   | Some (JDict r') =>
                       dict_set key (JDict (deep_merge_into value r')) acc
                   | _ => dict_set key value acc
                   end
               | _ => dict_set key value acc
               end
         end) items r
  | _ => r
  end.

Definition deep_merge (R U : pydict) : pydict := deep_merge_into (JDict U) R.

(** A field of a nested object after the merge. *)
Definition nested_field (r u : pydict) (f : string) : option json :=
  match dict_get f u with
  | Some x => Some x
  | None => dict_get f r
  end.

End Spec.

(** ** Vocabulary of the statements *)

Module Store.

(** The requests that reach a handler, with what the handler reads from
    its environment.  The two read routes write nothing to the file. *)
Inductive request : Type :=
| POST (product : Schema.Product.t) (uuid4 : Schema.UUID) (utcnow : string)
| DELETE (product_id : Schema.UUID)
| PUT (product_id : Schema.UUID) (payload : Schema.Update_Product.t)
| PATCH (product_id : Schema.UUID) (payload : Schema.Update_Product.t)
| GET (product_id : string).

(** The data file after a request has been served. *)
Definition serve (s : fs) (r : request) : fs :=
  match r with
  | POST product uuid4 utcnow => snd (Main.create_product product uuid4 utcnow s)
  | DELETE product_id => snd (Main.delete_product product_id s)
  | PUT product_id payload => snd (Main.update_product product_id payload s)
  | PATCH product_id payload => snd (Main.patch_product product_id payload s)
  | GET product_id => snd (Main.get_product_by_id product_id s)
  end.

Definition serve_all (s : fs) (rs : list request) : fs := fold_left serve rs s.

(** The collection a state holds, as every operation first reads it. *)
Definition collection (s : fs) : list pydict :=
  match s with
  | None => []
  | Some products => products
  end.




Definition has_string_sku (record : pydict) : Prop :=
  exists s, dict_get "sku" record = Some (JStr s).

Definition has_sku (record : pydict) : Prop := dict_get "sku" record <> None.

(** The record's SKU compares equal to [sku]. *)
Definition same_sku (sku : json) (record : pydict) : Prop :=
  exists v, dict_get "sku" record = Some v /\ py_eq v sku = true.

Definition skus (products : list pydict) : list (option json) :=
  map (dict_get "sku") products.

(** Every record has a SKU and no two records share one. *)
Definition sku_unique (products : list pydict) : Prop :=
  Forall has_string_sku products /\ NoDup (skus products).

(** The record [create_product] hands to the store. *)
Definition created_record (product : Schema.Product.t) (uuid4 : Schema.UUID)
  (utcnow : string) : pydict :=
  dict_set "created_at" (JStr (utcnow ++ "Z")%string)
    (dict_set "id" (JStr (Schema.str uuid4)) (Schema.Product.model_dump product)).

(** A value that is neither null nor an object. *)
Definition plain (v : json) : bool :=
  match v with
  | JNull | JDict _ => false
  | _ => true
  end.

(** The objects nested in the payload hold plain values only, as the
    seller and the dimensions of a product do. *)
Definition flat_objects (update_data : pydict) : bool :=
  forallb (fun item =>
             match snd item with
             | JDict u => forallb (fun field => plain (snd field)) u
             | _ => true
             end) update_data.

(** A key the update leaves alone: absent from the payload, or null. *)
Definition not_mentioned (key : string) (update_data : pydict) : Prop :=
  dict_get key update_data = None \/ dict_get key update_data = Some JNull.

(** The record has an identifier, and it compares equal to [id], or
    unequal. *)
Definition has_id (id : string) (record : pydict) : Prop :=
  exists v, dict_get "id" record = Some v /\ py_eq v (JStr id) = true.

Definition other_id (id : string) (record : pydict) : Prop :=
  exists v, dict_get "id" record = Some v /\ py_eq v (JStr id) = false.

(** The record has a SKU, and it compares unequal to [sku]. *)
Definition other_sku (sku : json) (record : pydict) : Prop :=
  exists v, dict_get "sku" record = Some v /\ py_eq v sku = false.

(** The pages [get] fetches are those the listing route answers over the
    collection [dep], with its defaults for the other parameters. *)
Definition served_by (lower strip : string -> string)
  (sort : bool -> list pydict -> outcome (list pydict)) (dep : list pydict)
  (get : nat -> nat -> outcome Dashboard.response) : Prop :=
  forall limit offset,
  exists page,
    Main.list_products lower strip sort dep None false "asc" limit offset =
    Return page /\
    get limit offset =
    Return {| Dashboard.status_code := 200; Dashboard.body := Return page |}.

(** How many times the character [c] occurs in [s]. *)
Fixpoint occurrences (c : ascii) (s : string) : nat :=
  match s with
  | EmptyString => 0%nat
  | String c' rest =>
      ((if Ascii.eqb c' c then 1 else 0) + occurrences c rest)%nat
  end.

End Store.

(** ** Sample data *)

Module Sample.

Import Schema.

Definition id_a : UUID := uuid "2f54696f-d3e1-32a3-a3ef-d8593fae2d7b".
Definition id_b : UUID := uuid "7c9e6679-7425-40de-944b-e07fc1f90ae7".
Definition id_c : UUID := uuid "0e37df36-f698-41e6-8dd4-cb9ced3df976".

Definition acme : Seller.t :=
  {| Seller.seller_id := uuid "16fd2706-8baf-433b-82eb-8c7fada847da";
     Seller.name := "Acme";
     Seller.email := "sales@example.com";
     Seller.website := "https://example.com/" |}.

Definition box : Dimensions_cm.t :=
  {| Dimensions_cm.length := of_Z 10;
     Dimensions_cm.width := of_Z 5;
     Dimensions_cm.height := of_Z 2 |}.

Definition product (id : UUID) (sku name : string) (price : float)
  (discount_percent : option float) : Product.t :=
  {| Product.id := id;
     Product.sku := sku;
     Product.name := name;
     Product.description := None;
     Product.category := "Accessories";
     Product.brand := None;
     Product.price := price;
     Product.currency := USD;
     Product.discount_percent := discount_percent;
     Product.stock := 10;
     Product.is_active := true;
     Product.rating := None;
     Product.tags := None;
     Product.image_url := None;
     Product.dimensions_cm := box;
     Product.seller := acme;
     Product.created_at := "2024-01-01T00:00:00Z" |}.

(** The spec's example: price 20.0, discount_percent 10. *)
Definition mouse : Product.t :=
  product id_a "ABCD12345" "Mouse" (of_Z 20) (Some (of_Z 10)).

Definition keyboard : Product.t :=
  product id_b "KEYB-00001" "Keyboard" (of_Z 30) None.

(** Price 1.0, discount_percent 0.5. *)
Definition cable : Product.t :=
  product id_c "CABLE-0001" "Cable" (of_Z 1) (Some (fdiv (of_Z 1) (of_Z 2))).

(** The records the store holds for them. *)
Definition stored (p : Product.t) : pydict := Product.model_dump p.

Definition two_products : fs := Some [stored mouse; stored keyboard].

(** An update payload that names every required field, gives
    [created_at] as null, as an object of the class must have it given,
    and sets nothing else. *)
Definition payload (id : UUID) (name : string) (price : float)
  (discount_percent : field (option float)) : Update_Product.t :=
  {| Update_Product.id := id;
     Update_Product.name := Some name;
     Update_Product.description := Unset;
     Update_Product.category := Some "Accessories";
     Update_Product.brand := Unset;
     Update_Product.price := Some price;
     Update_Product.currency := Some USD;
     Update_Product.discount_percent := discount_percent;
     Update_Product.stock := Some 10;
     Update_Product.is_active := Unset;
     Update_Product.rating := Unset;
     Update_Product.tags := Unset;
     Update_Product.image_url := Unset;
     Update_Product.dimensions_cm := Some box;
     Update_Product.seller := Some acme;
     Update_Product.created_at := Given None |}.


(** The spec's merge and partial-update examples. *)
Definition with_seller : pydict :=
  [ ("id", JStr (str id_a));
    ("seller", JDict [("name", JStr "A"); ("email", JStr "a@x.com")]) ].

Definition rename_seller : pydict := [ ("seller", JDict [("name", JStr "B")]) ].

(** Payloads and a record on which one level of merging and a merge
    that recurses part: a null inside the seller, and an object inside
    the seller. *)
Definition clear_seller_name : pydict := [ ("seller", JDict [("name", JNull)]) ].

Definition with_contact : pydict :=
  [ ("id", JStr (str id_a));
    ("seller",
     JDict [ ("name", JStr "A");
             ("contact",
              JDict [("email", JStr "a@x.com"); ("phone", JStr "555-0100")]) ]) ].

Definition new_contact_email : pydict :=
  [ ("seller", JDict [("contact", JDict [("email", JStr "b@x.com")])]) ].

Definition in_stock : pydict :=
  [ ("id", JStr (str id_a)); ("price", JFloat (of_Z 20)); ("stock", JInt 10) ].

Definition reprice : pydict := [ ("price", JInt 50) ].

(** Instances of the runtime's string and sort methods, for the sample
    data: lower-casing of the letters A to Z, no surrounding blanks to
    strip, and prices already in the order asked for. *)
Definition lower_char (c : ascii) : ascii :=
  let n := nat_of_ascii c in
  if (Nat.leb 65 n && Nat.leb n 90)%bool then ascii_of_nat (n + 32) else c.

Fixpoint ascii_lower (s : string) : string :=
  match s with
  | EmptyString => EmptyString
  | String c rest => String (lower_char c) (ascii_lower rest)
  end.

Definition no_strip (s : string) : string := s.

Definition sorted_already (reverse : bool) (l : list pydict)
  : outcome (list pydict) :=
  Return (if reverse then rev l else l).

(** A client whose requests the listing route answers over [dep]. *)
Definition pages_of (dep : list pydict) (limit offset : nat)
  : outcome Dashboard.response :=
  match Main.list_products ascii_lower no_strip sorted_already dep None false
          "asc" limit offset with
  | Return page =>
      Return {| Dashboard.status_code := 200; Dashboard.body := Return page |}
  | Raise e => Raise e
  end.

(** A record the store holds without [id] or [sku]. *)
Definition nameless : pydict := [ ("name", JStr "Loose item") ].

(** A record whose name is a number. *)
Definition misnamed : pydict := [ ("id", JStr (str id_c)); ("name", JInt 7) ].

(** An instance of [str.strip] that removes the spaces at both ends. *)
Fixpoint lstrip_spaces (s : string) : string :=
  match s with
  | String c rest => if Ascii.eqb c " " then lstrip_spaces rest else s
  | EmptyString => EmptyString
  end.

Definition reversed (s : string) : string :=
  string_of_list_ascii (rev (list_ascii_of_string s)).

Definition strip_spaces (s : string) : string :=
  reversed (lstrip_spaces (reversed (lstrip_spaces s))).

End Sample.

(** ** Dictionaries *)

Section DictFacts.
Variable V : Type.
Implicit Types (d u : alist V) (k : string) (v : V).

Lemma dict_get_set_same k v d : dict_get k (dict_set k v d) = Some v.
Proof.
  induction d as [|[k' v'] d IH]; simpl.
  - now rewrite String.eqb_refl.
  - destruct (String.eqb k k') eqn:E; simpl; rewrite E; auto.
Qed.

Lemma dict_get_set_other k k' v d :
  k <> k' -> dict_get k (dict_set k' v d) = dict_get k d.
Proof.
  intros Hne. induction d as [|[k0 v0] d IH]; simpl.
  - destruct (String.eqb k k') eqn:E; auto.
    apply String.eqb_eq in E. contradiction.
  - destruct (String.eqb k' k0) eqn:E; simpl.
    + apply String.eqb_eq in E. subst k0.
      destruct (String.eqb k k') eqn:E'; auto.
      apply String.eqb_eq in E'. contradiction.
    + now rewrite IH.
Qed.

Lemma dict_get_app k d u :
  dict_get k (d ++ u) =
  match dict_get k d with
  | Some v => Some v
  | None => dict_get k u
  end.
Proof.
  induction d as [|[k' v'] d IH]; simpl; auto.
  destruct (String.eqb k k'); auto.
Qed.

Lemma dict_get_not_key k d :
  existsb (String.eqb k) (keys d) = false -> dict_get k d = None.
Proof.
  induction d as [|[k' v'] d IH]; simpl; auto.
  destruct (String.eqb k k'); simpl; auto. discriminate.
Qed.

Lemma dict_get_in k v d : dict_get k d = Some v -> In (k, v) d.
Proof.
  induction d as [|[k' v'] d IH]; simpl; try discriminate.
  destruct (String.eqb k k') eqn:E.
  - apply String.eqb_eq in E. intros [= ->]. subst. now left.
  - auto.
Qed.

Lemma in_dict_get k v d :
  unique_keys (keys d) = true -> In (k, v) d -> dict_get k d = Some v.
Proof.
  induction d as [|[k' v'] d IH]; simpl; [tauto|].
  intros Hu [Heq | Hin].
  - injection Heq as -> ->. now rewrite String.eqb_refl.
  - apply andb_prop in Hu as [Hk Hu].
    destruct (String.eqb k k') eqn:E; auto.
    apply String.eqb_eq in E. subst k'.
    apply negb_true_iff, dict_get_not_key in Hk.
    rewrite (IH Hu Hin) in Hk. discriminate.
Qed.

(** After [d.update(u)] a key of [u] has the value [u] gives it, and
    every other key the value it had in [d]. *)
Lemma dict_get_update f d u :
  unique_keys (keys u) = true ->
  dict_get f (dict_update d u) =
  match dict_get f u with
  | Some x => Some x
  | None => dict_get f d
  end.
Proof.
  unfold dict_update. revert d.
  induction u as [|[k v] u IH]; intros d Hu; simpl in *; auto.
  apply andb_prop in Hu as [Hk Hu].
  rewrite (IH _ Hu).
  destruct (String.eqb f k) eqn:E.
  - apply String.eqb_eq in E. subst k.
    apply negb_true_iff, dict_get_not_key in Hk. rewrite Hk.
    apply dict_get_set_same.
  - destruct (dict_get f u); auto.
    apply dict_get_set_other. intros ->.
    now rewrite String.eqb_refl in E.
Qed.

End DictFacts.

Lemma dict_wf_unique (d : pydict) : dict_wf d = true -> unique_keys (keys d) = true.
Proof.
  unfold dict_wf. simpl. intros H. now apply andb_prop in H.
Qed.

Lemma dict_wf_nested (d : pydict) (k : string) (u : pydict) :
  dict_wf d = true -> In (k, JDict u) d -> dict_wf u = true.
Proof.
  unfold dict_wf. simpl. intros H Hin.
  apply andb_prop in H as [_ H].
  rewrite forallb_forall in H. exact (H _ Hin).
Qed.

(** ** The merge of [change_product] *)

Lemma merge_item_other (product : pydict) (key k : string) (value : json) :
  key <> k ->
  dict_get key (Service.merge_item product (k, value)) = dict_get key product.
Proof.
  intros Hne. unfold Service.merge_item.
  destruct value; try reflexivity; try (now apply dict_get_set_other).
  destruct (dict_get k product) as [[]|]; now apply dict_get_set_other.
Qed.

Lemma merge_item_same (product : pydict) (key : string) (value : json) :
  value <> JNull ->
  dict_get key (Service.merge_item product (key, value)) =
  Some (Spec.merged_value (dict_get key product) value).
Proof.
  intros Hnn. unfold Service.merge_item, Spec.merged_value.
  destruct value; try contradiction; try (now rewrite dict_get_set_same).
  - destruct (dict_get key product) as [[]|]; apply dict_get_set_same.
  - destruct (dict_get key product) as [[]|]; apply dict_get_set_same.
  - destruct (dict_get key product) as [[]|]; apply dict_get_set_same.
  - destruct (dict_get key product) as [[]|]; apply dict_get_set_same.
  - destruct (dict_get key product) as [[]|]; apply dict_get_set_same.
  - destruct (dict_get key product) as [[]|]; apply dict_get_set_same.
Qed.

Lemma merge_cons (product : pydict) (item : string * json) (update_data : pydict) :
  Service.merge product (item :: update_data) =
  Service.merge (Service.merge_item product item) update_data.
Proof. reflexivity. Qed.

Lemma eqb_false_neq (a b : string) : String.eqb a b = false -> a <> b.
Proof. intros E ->. now rewrite String.eqb_refl in E. Qed.

Lemma merge_absent (update_data product : pydict) (key : string) :
  dict_get key update_data = None ->
  dict_get key (Service.merge product update_data) = dict_get key product.
Proof.
  revert product.
  induction update_data as [|[k v] u IH]; intros product Hk; auto.
  simpl in Hk. destruct (String.eqb key k) eqn:E; try discriminate.
  rewrite merge_cons, (IH _ Hk).
  apply merge_item_other. now apply eqb_false_neq.
Qed.

Lemma merge_null (update_data product : pydict) (key : string) :
  unique_keys (keys update_data) = true ->
  dict_get key update_data = Some JNull ->
  dict_get key (Service.merge product update_data) = dict_get key product.
Proof.
  revert product.
  induction update_data as [|[k v] u IH]; intros product Hu Hk;
    try discriminate.
  simpl in Hu, Hk. apply andb_prop in Hu as [Hfresh Hu].
  rewrite merge_cons.
  destruct (String.eqb key k) eqn:E.
  - apply String.eqb_eq in E. subst k. injection Hk as ->.
    apply negb_true_iff, dict_get_not_key in Hfresh.
    now rewrite merge_absent.
  - rewrite (IH _ Hu Hk).
    apply merge_item_other. now apply eqb_false_neq.
Qed.

Lemma merge_present (update_data product : pydict) (key : string) (value : json) :
  unique_keys (keys update_data) = true ->
  dict_get key update_data = Some value ->
  value <> JNull ->
  dict_get key (Service.merge product update_data) =
  Some (Spec.merged_value (dict_get key product) value).
Proof.
  revert product.
  induction update_data as [|[k v] u IH]; intros product Hu Hk Hnn;
    try discriminate.
  simpl in Hu, Hk. apply andb_prop in Hu as [Hfresh Hu].
  rewrite merge_cons.
  destruct (String.eqb key k) eqn:E.
  - apply String.eqb_eq in E. subst k. injection Hk as ->.
    apply negb_true_iff, dict_get_not_key in Hfresh.
    rewrite merge_absent by assumption.
    now apply merge_item_same.
  - rewrite (IH _ Hu Hk Hnn). do 2 f_equal.
    apply merge_item_other. now apply eqb_false_neq.
Qed.

(** On a collection that is not empty [change_product] merges the
    payload into the first record, whatever [id] is. *)
Lemma change_product_first (id : string) (update_data record : pydict)
  (others : list pydict) :
  Service.change_product id update_data (Some (record :: others)) =
  (Return (Service.merge record update_data),
   Some (Service.merge record update_data :: others)).
Proof. reflexivity. Qed.

Lemma change_product_empty (id : string) (update_data : pydict) (s : fs) :
  Store.collection s = [] ->
  Service.change_product id update_data s =
  (Raise (ValueError (Service.id_not_found id)), s).
Proof.
  destruct s as [[|p ps]|]; simpl; intros H; try discriminate; reflexivity.
Qed.

(** A dump of an update payload raises no [ValueError]: the handler of
    [update_product] lets what it raises through. *)
Lemma dump_raises_no_ValueError (payload : Schema.Update_Product.t) (msg : text) :
  Schema.Update_Product.model_dump_exclude_unset payload <> Raise (ValueError msg).
Proof.
  unfold Schema.Update_Product.model_dump_exclude_unset,
    Schema.Update_Product.discounted_price, Schema.Update_Product.volume_cm3.
  destruct (attr None (Schema.Update_Product.discount_percent payload));
    destruct (Schema.Update_Product.price payload);
    destruct (Schema.Update_Product.dimensions_cm payload);
    simpl; discriminate.
Qed.

Lemma update_product_first (product_id : Schema.UUID)
  (payload : Schema.Update_Product.t) (record : pydict) (others : list pydict) :
  Main.update_product product_id payload (Some (record :: others)) =
  match Schema.Update_Product.model_dump_exclude_unset payload with
  | Return update_data =>
      (Return (Service.merge record update_data),
       Some (Service.merge record update_data :: others))
  | Raise e => (Raise e, Some (record :: others))
  end.
Proof.
  unfold Main.update_product, except_ValueError, bind, lift.
  pose proof (dump_raises_no_ValueError payload) as Hno.
  destruct (Schema.Update_Product.model_dump_exclude_unset payload) as [u|e].
  - now rewrite change_product_first.
  - destruct e; try reflexivity. now contradiction (Hno msg).
Qed.

(** ** Update *)

(** C1 (the code departs from the specification).  The update operation should
    write to the record whose identifier is [id] and fail when there is
    none.  On the collection of the mouse (identifier [id_a]) and the
    keyboard (identifier [id_b]), an update for [id_b], and one for the
    unknown [id_c], both succeed and both rewrite the mouse; the keyboard
    is left as it was. *)
Theorem change_product_ignores_id :
  let repriced := dict_set "price" (JInt 50) (Sample.stored Sample.mouse) in
  dict_get "id" repriced = Some (JStr (Schema.str Sample.id_a)) /\
  Service.change_product (Schema.str Sample.id_b) Sample.reprice
    Sample.two_products =
  (Return repriced, Some [repriced; Sample.stored Sample.keyboard]) /\
  Service.change_product (Schema.str Sample.id_c) Sample.reprice
    Sample.two_products =
  (Return repriced, Some [repriced; Sample.stored Sample.keyboard]).
Proof. repeat split; vm_compute; reflexivity. Qed.




(** ** Delete *)

(** C3 (the code departs from the specification).  Deleting an identifier no
    record has should fail.  On the collection of the mouse and the
    keyboard, [remove_product] for the unknown [id_c] raises nothing: it
    returns [None] and leaves the file as it was, so the handler's
    [except ValueError] never runs and the route answers [null]. *)
Theorem remove_product_unknown_id_returns_None :
  Service.remove_product (Schema.str Sample.id_c) Sample.two_products =
  (Return JNull, Sample.two_products) /\
  Main.delete_product Sample.id_c Sample.two_products =
  (Return JNull, Sample.two_products).
Proof. split; vm_compute; reflexivity. Qed.

(** ** The identifier under update *)

Ltac absent_key :=
  unfold Schema.Update_Product.dump_fields, entry, entry_if_set;
  repeat rewrite dict_get_app; simpl;
  repeat match goal with
         | |- context [match ?f with Unset => _ | Given _ => _ end] =>
             destruct f; simpl
         end;
  reflexivity.

(** The update payload has no [sku]. *)
Lemma dump_fields_no_sku (u : Schema.Update_Product.t) :
  dict_get "sku" (Schema.Update_Product.dump_fields u) = None.
Proof. absent_key. Qed.

Lemma dump_shape (u : Schema.Update_Product.t) (update_data : pydict) :
  Schema.Update_Product.model_dump_exclude_unset u = Return update_data ->
  exists computed, update_data = Schema.Update_Product.dump_fields u ++ computed /\
                   dict_get "sku" computed = None /\
                   dict_get "id" computed = None.
Proof.
  unfold Schema.Update_Product.model_dump_exclude_unset.
  destruct (Schema.Update_Product.discounted_price u) as [dp|]; try discriminate.
  destruct (Schema.Update_Product.volume_cm3 u) as [vol|]; try discriminate.
  unfold obind. intros H.
  exists [("discounted_price", ser_opt ser_float dp); ("volume_cm3", ser_float vol)].
  split; [congruence|]. split; reflexivity.
Qed.

Lemma dump_no_sku (u : Schema.Update_Product.t) (update_data : pydict) :
  Schema.Update_Product.model_dump_exclude_unset u = Return update_data ->
  dict_get "sku" update_data = None.
Proof.
  intros H. destruct (dump_shape u H) as [computed [-> [Hsku _]]].
  now rewrite dict_get_app, dump_fields_no_sku.
Qed.

(** The fields of the dump after the first. *)
Lemma dump_fields_id (u : Schema.Update_Product.t) :
  exists rest,
    Schema.Update_Product.dump_fields u =
    ("id", JStr (Schema.str (Schema.Update_Product.id u))) :: rest /\
    dict_get "id" rest = None.
Proof.
  unfold Schema.Update_Product.dump_fields.
  unfold entry at 1. cbn [app].
  eexists. split; [reflexivity|]. absent_key.
Qed.

(** Its first item is the [id], and no later item has that key. *)
Lemma dump_id_first (u : Schema.Update_Product.t) (update_data : pydict) :
  Schema.Update_Product.model_dump_exclude_unset u = Return update_data ->
  exists rest,
    update_data = ("id", JStr (Schema.str (Schema.Update_Product.id u))) :: rest /\
    dict_get "id" rest = None.
Proof.
  intros H. destruct (dump_shape u H) as [computed [-> [_ Hid]]].
  destruct (dump_fields_id u) as [rest [-> Hrest]].
  exists (rest ++ computed). split; [reflexivity|].
  now rewrite dict_get_app, Hrest.
Qed.

Lemma dump_unique_keys (u : Schema.Update_Product.t) (update_data : pydict) :
  Schema.Update_Product.model_dump_exclude_unset u = Return update_data ->
  unique_keys (keys update_data) = true.
Proof.
  unfold Schema.Update_Product.model_dump_exclude_unset.
  destruct (Schema.Update_Product.discounted_price u) as [dp|]; try discriminate.
  destruct (Schema.Update_Product.volume_cm3 u) as [vol|]; try discriminate.
  unfold obind. intros H.
  replace update_data with
    (Schema.Update_Product.dump_fields u ++
     [("discounted_price", ser_opt ser_float dp); ("volume_cm3", ser_float vol)])
    by congruence.
  unfold Schema.Update_Product.dump_fields, entry, entry_if_set.
  destruct (Schema.Update_Product.description u),
    (Schema.Update_Product.brand u),
    (Schema.Update_Product.discount_percent u),
    (Schema.Update_Product.is_active u),
    (Schema.Update_Product.rating u),
    (Schema.Update_Product.tags u),
    (Schema.Update_Product.image_url u),
    (Schema.Update_Product.created_at u); reflexivity.
Qed.

(** ** Merge *)

(** On a flat object the recursive reading of the rule is [dict.update]. *)
Lemma deep_merge_into_flat (u r : pydict) :
  forallb (fun field => Store.plain (snd field)) u = true ->
  Spec.deep_merge_into (JDict u) r = dict_update r u.
Proof.
  unfold dict_update. revert r.
  induction u as [|[f x] u IH]; intros r Hflat; [reflexivity|].
  simpl in Hflat. apply andb_prop in Hflat as [Hx Hu].
  specialize (IH (dict_set f x r) Hu). simpl in *.
  rewrite <- IH. destruct x; try discriminate; reflexivity.
Qed.

Lemma merge_is_deep_merge (U R : pydict) :
  Store.flat_objects U = true ->
  Service.merge R U = Spec.deep_merge R U.
Proof.
  unfold Spec.deep_merge. revert R.
  induction U as [|[key value] U IH]; intros R Hflat; [reflexivity|].
  simpl in Hflat. apply andb_prop in Hflat as [Hvalue HU].
  rewrite merge_cons, (IH _ HU). simpl.
  f_equal. destruct value; try reflexivity.
  destruct (dict_get key R) as [[]|]; try reflexivity.
  now rewrite (deep_merge_into_flat d d0 Hvalue).
Qed.

Ltac flat_entry :=
  unfold entry; cbn [snd forallb];
  repeat match goal with
         | |- context [entry_if_set _ _ ?f] =>
             destruct f; cbn [entry_if_set forallb snd]
         | |- context [ser_opt _ ?x] => destruct x; cbn [ser_opt]
         end;
  reflexivity.

(** The payloads of the route nest flat objects only. *)
Lemma dump_flat_objects (u : Schema.Update_Product.t) (update_data : pydict) :
  Schema.Update_Product.model_dump_exclude_unset u = Return update_data ->
  Store.flat_objects update_data = true.
Proof.
  unfold Schema.Update_Product.model_dump_exclude_unset.
  destruct (Schema.Update_Product.discounted_price u) as [dp|]; try discriminate.
  destruct (Schema.Update_Product.volume_cm3 u) as [vol|]; try discriminate.
  unfold obind. intros H.
  replace update_data with
    (Schema.Update_Product.dump_fields u ++
     [("discounted_price", ser_opt ser_float dp); ("volume_cm3", ser_float vol)])
    by congruence.
  unfold Store.flat_objects, Schema.Update_Product.dump_fields.
  rewrite !forallb_app.
  repeat (apply andb_true_intro; split); flat_entry.
Qed.

(** C7, as the code has it.  The merge goes one level deep.  For each
    key the payload gives a non-null value: when the stored value and
    the payload value are both objects, the stored object is kept and
    each of its fields has the payload's value if the payload names it,
    whatever that value is (a null and an object included), and the
    stored value otherwise; in every other case the key holds the
    payload value.  Where the nested objects of the payload hold plain
    values, as those of every payload of the route do (seller,
    dimensions), this is the merge that recurses into every pair of
    objects.  Stored seller [{name: A, email: a@x.com}] merged with
    [{seller: {name: B}}] is [{name: B, email: a@x.com}]. *)
Theorem merge_rule (id : string) (R U : pydict) (others : list pydict) :
  dict_wf U = true ->
  exists R',
    Service.change_product id U (Some (R :: others)) =
    (Return R', Some (R' :: others)) /\
    (forall key value,
        dict_get key U = Some value -> value <> JNull ->
        (forall r u,
            dict_get key R = Some (JDict r) -> value = JDict u ->
            exists m,
              dict_get key R' = Some (JDict m) /\
              forall f, dict_get f m = Spec.nested_field r u f) /\
        ((forall r u, ~ (dict_get key R = Some (JDict r) /\ value = JDict u)) ->
         dict_get key R' = Some value)) /\
    (Store.flat_objects U = true -> R' = Spec.deep_merge R U) /\
    (forall product_id payload U',
        Schema.Update_Product.model_dump_exclude_unset payload = Return U' ->
        Main.update_product product_id payload (Some (R :: others)) =
        (Return (Spec.deep_merge R U'), Some (Spec.deep_merge R U' :: others))) /\
    dict_get "seller" (Service.merge Sample.with_seller Sample.rename_seller) =
    Some (JDict [("name", JStr "B"); ("email", JStr "a@x.com")]).
Proof.
  intros Hwf. exists (Service.merge R U).
  split; [apply change_product_first|].
  split; [|split; [now apply merge_is_deep_merge|split; [|reflexivity]]].
  - intros key value Hget Hnn.
    pose proof (dict_wf_unique U Hwf) as Hu.
    rewrite (@merge_present U R key value Hu Hget Hnn).
    split.
    + intros r u Hr ->. rewrite Hr. simpl.
      exists (dict_update r u). split; [reflexivity|].
      intros f. apply dict_get_update.
      apply dict_wf_unique, (dict_wf_nested U key u Hwf).
      now apply dict_get_in.
    + intros Hno. unfold Spec.merged_value.
      destruct (dict_get key R) as [[]|]; try reflexivity.
      destruct value; try reflexivity.
      exfalso. now apply (Hno d d0).
  - intros product_id payload U' Hdump.
    rewrite update_product_first, Hdump.
    now rewrite (merge_is_deep_merge U' R (dump_flat_objects payload Hdump)).
Qed.

Lemma merge_rule_witness :
  dict_wf Sample.rename_seller = true /\
  exists R',
    Service.change_product (Schema.str Sample.id_a) Sample.rename_seller
      (Some [Sample.with_seller]) =
    (Return R', Some [R']) /\
    (forall key value,
        dict_get key Sample.rename_seller = Some value -> value <> JNull ->
        (forall r u,
            dict_get key Sample.with_seller = Some (JDict r) -> value = JDict u ->
            exists m,
              dict_get key R' = Some (JDict m) /\
              forall f, dict_get f m = Spec.nested_field r u f) /\
        ((forall r u,
             ~ (dict_get key Sample.with_seller = Some (JDict r) /\
                value = JDict u)) ->
         dict_get key R' = Some value)) /\
    (Store.flat_objects Sample.rename_seller = true ->
     R' = Spec.deep_merge Sample.with_seller Sample.rename_seller) /\
    (forall product_id payload U',
        Schema.Update_Product.model_dump_exclude_unset payload = Return U' ->
        Main.update_product product_id payload (Some [Sample.with_seller]) =
        (Return (Spec.deep_merge Sample.with_seller U'),
         Some [Spec.deep_merge Sample.with_seller U'])) /\
    dict_get "seller" (Service.merge Sample.with_seller Sample.rename_seller) =
    Some (JDict [("name", JStr "B"); ("email", JStr "a@x.com")]).
Proof.
  split; [reflexivity|].
  apply (@merge_rule (Schema.str Sample.id_a) Sample.with_seller Sample.rename_seller []).
  reflexivity.
Defined.

(** C7 fails as stated.  The merge does not recurse.  A null inside the
    seller of the payload is written over the stored name, where the
    rule applied to the fields of the seller would skip it; and an
    object inside the seller replaces the stored one, losing its
    [phone], where the rule applied again would keep it. *)
Lemma merge_is_one_level_deep :
  let id := Schema.str Sample.id_a in
  dict_wf Sample.clear_seller_name = true /\
  dict_wf Sample.new_contact_email = true /\
  (exists R',
      Service.change_product id Sample.clear_seller_name
        (Some [Sample.with_seller]) = (Return R', Some [R']) /\
      dict_get "seller" R' =
      Some (JDict [("name", JNull); ("email", JStr "a@x.com")]) /\
      dict_get "seller"
        (Spec.deep_merge Sample.with_seller Sample.clear_seller_name) =
      Some (JDict [("name", JStr "A"); ("email", JStr "a@x.com")])) /\
  (exists R',
      Service.change_product id Sample.new_contact_email
        (Some [Sample.with_contact]) = (Return R', Some [R']) /\
      dict_get "seller" R' =
      Some (JDict [ ("name", JStr "A");
                    ("contact", JDict [("email", JStr "b@x.com")]) ]) /\
      dict_get "seller"
        (Spec.deep_merge Sample.with_contact Sample.new_contact_email) =
      Some (JDict [ ("name", JStr "A");
                    ("contact",
                     JDict [ ("email", JStr "b@x.com");
                             ("phone", JStr "555-0100") ]) ])).
Proof.
  cbv zeta. split; [reflexivity|]. split; [reflexivity|].
  split; eexists; (split; [vm_compute; reflexivity|]);
    split; vm_compute; reflexivity.
Qed.

(** ** Fields the payload does not mention *)

(** C8.  Any dict is accepted as payload by the store, and a key that is
    absent from the payload, or null in it, has after the update the
    value it had before; the same holds for the payloads of the route,
    whose fields with a default may be left unset.  Updating
    [{price: 50}] on a product with stock 10 gives price 50 and stock
    10. *)
Theorem unmentioned_field_unchanged (id : string) (R U : pydict)
  (others : list pydict) (key : string) :
  dict_wf U = true ->
  Store.not_mentioned key U ->
  exists R',
    Service.change_product id U (Some (R :: others)) =
    (Return R', Some (R' :: others)) /\
    dict_get key R' = dict_get key R /\
    (forall product_id payload U',
        Schema.Update_Product.model_dump_exclude_unset payload = Return U' ->
        Store.not_mentioned key U' ->
        exists R'',
          Main.update_product product_id payload (Some (R :: others)) =
          (Return R'', Some (R'' :: others)) /\
          dict_get key R'' = dict_get key R) /\
    dict_get "price" (Service.merge Sample.in_stock Sample.reprice) =
    Some (JInt 50) /\
    dict_get "stock" (Service.merge Sample.in_stock Sample.reprice) =
    Some (JInt 10).
Proof.
  intros Hwf Hkey. exists (Service.merge R U).
  split; [apply change_product_first|].
  assert (Hframe : forall V, unique_keys (keys V) = true ->
                             Store.not_mentioned key V ->
                             dict_get key (Service.merge R V) = dict_get key R).
  { intros V Hu [Habsent | Hnull].
    - now apply merge_absent.
    - now apply merge_null. }
  split; [apply Hframe; [now apply dict_wf_unique|assumption]|].
  split; [|split; reflexivity].
  intros product_id payload U' Hdump Hkey'.
  exists (Service.merge R U'). split.
  - rewrite update_product_first, Hdump. reflexivity.
  - apply Hframe; [|assumption]. exact (dump_unique_keys payload Hdump).
Qed.

Lemma unmentioned_field_unchanged_witness :
  dict_wf Sample.reprice = true /\
  Store.not_mentioned "stock" Sample.reprice /\
  exists R',
    Service.change_product "x" Sample.reprice (Some [Sample.in_stock]) =
    (Return R', Some [R']) /\
    dict_get "stock" R' = dict_get "stock" Sample.in_stock /\
    (forall product_id payload U',
        Schema.Update_Product.model_dump_exclude_unset payload = Return U' ->
        Store.not_mentioned "stock" U' ->
        exists R'',
          Main.update_product product_id payload (Some [Sample.in_stock]) =
          (Return R'', Some [R'']) /\
          dict_get "stock" R'' = dict_get "stock" Sample.in_stock) /\
    dict_get "price" (Service.merge Sample.in_stock Sample.reprice) =
    Some (JInt 50) /\
    dict_get "stock" (Service.merge Sample.in_stock Sample.reprice) =
    Some (JInt 10).
Proof.
  split; [reflexivity|]. split; [left; reflexivity|].
  apply (@unmentioned_field_unchanged "x" Sample.in_stock Sample.reprice []
           "stock"); [reflexivity | left; reflexivity].
Defined.

(** An update payload the class has built and accepted gives
    [created_at]. *)
Lemma validated_gives_created_at (u : Schema.Update_Product.t) :
  Schema.Update_Product.validated u = true ->
  exists v, Schema.Update_Product.created_at u = Given v.
Proof.
  unfold Schema.Update_Product.validated, Schema.Update_Product.built.
  destruct (Schema.Update_Product.created_at u) as [|v]; [discriminate|].
  now exists v.
Qed.

(** C4, as the code has it.  The identifier is not protected from an
    update: the payload of the route carries an [id] of its own, and
    after every update that goes through the record written holds the
    payload's [id], whatever identifier it had. *)
Theorem updated_identifier_is_payload_id (product_id : Schema.UUID)
  (payload : Schema.Update_Product.t) (R U : pydict) (others : list pydict) :
  Schema.Update_Product.model_dump_exclude_unset payload = Return U ->
  exists R',
    Main.update_product product_id payload (Some (R :: others)) =
    (Return R', Some (R' :: others)) /\
    Main.patch_product product_id payload (Some (R :: others)) =
    (Return R', Some (R' :: others)) /\
    dict_get "id" R' = Some (JStr (Schema.str (Schema.Update_Product.id payload))).
Proof.
  intros Hdump. exists (Service.merge R U).
  assert (Hupd : Main.update_product product_id payload (Some (R :: others)) =
                 (Return (Service.merge R U), Some (Service.merge R U :: others))).
  { rewrite update_product_first, Hdump. reflexivity. }
  split; [exact Hupd|]. split; [exact Hupd|].
  destruct (dump_id_first payload Hdump) as [rest [-> Hrest]].
  rewrite merge_cons, merge_absent by assumption.
  rewrite merge_item_same by discriminate.
  unfold Spec.merged_value. now destruct (dict_get "id" R) as [[]|].
Qed.

Lemma updated_identifier_is_payload_id_witness :
  let payload := Sample.payload Sample.id_b "Mouse" (of_Z 20) Unset in
  exists U,
    Schema.Update_Product.model_dump_exclude_unset payload = Return U /\
    exists R',
      Main.update_product Sample.id_a payload
        (Some [Sample.stored Sample.mouse]) = (Return R', Some [R']) /\
      Main.patch_product Sample.id_a payload
        (Some [Sample.stored Sample.mouse]) = (Return R', Some [R']) /\
      dict_get "id" R' = Some (JStr (Schema.str Sample.id_b)).
Proof.
  cbv zeta. eexists. split; [vm_compute; reflexivity|].
  eapply (@updated_identifier_is_payload_id Sample.id_a
            (Sample.payload Sample.id_b "Mouse" (of_Z 20) Unset)
            (Sample.stored Sample.mouse)).
  vm_compute. reflexivity.
Defined.

(** C4 fails as stated.  The stored mouse has identifier [id_a]; an
    update addressed to [id_a] whose payload, accepted by the validator,
    carries [id_b] leaves the record with identifier [id_b]. *)
Lemma update_changes_identifier :
  let payload := Sample.payload Sample.id_b "Mouse" (of_Z 20) Unset in
  Schema.Update_Product.validated payload = true /\
  dict_get "id" (Sample.stored Sample.mouse) =
  Some (JStr (Schema.str Sample.id_a)) /\
  exists updated,
    Main.update_product Sample.id_a payload (Some [Sample.stored Sample.mouse]) =
    (Return updated, Some [updated]) /\
    dict_get "id" updated = Some (JStr (Schema.str Sample.id_b)) /\
    dict_get "id" updated <> dict_get "id" (Sample.stored Sample.mouse).
Proof.
  cbv zeta. split; [vm_compute; reflexivity|]. split; [reflexivity|].
  eexists. split; [vm_compute; reflexivity|].
  split; [reflexivity|]. vm_compute. discriminate.
Qed.

(** ** Create *)

(** What [add_product] does, by the outcome of the SKU test. *)
Lemma add_product_cases (product : pydict) (s : fs) :
  Service.add_product product s =
  match Service.any_same_sku (Store.collection s) product with
  | Return true =>
      match subscript product "sku" with
      | Return sku => (Raise (ValueError (Service.sku_exists sku)), s)
      | Raise e => (Raise e, s)
      end
  | Return false => (Return product, Some (Store.collection s ++ [product]))
  | Raise e => (Raise e, s)
  end.
Proof.
  unfold Service.add_product, Service.get_all_products, Service.load_products,
    Service.save_products, bind, lift, ret, raise.
  destruct s as [products|]; simpl.
  - destruct (Service.any_same_sku products product) as [[|]|e]; reflexivity.
  - reflexivity.
Qed.

Lemma created_record_sku (product : Schema.Product.t) (uuid4 : Schema.UUID)
  (utcnow : string) :
  dict_get "sku" (Store.created_record product uuid4 utcnow) =
  Some (JStr (Schema.Product.sku product)).
Proof.
  unfold Store.created_record.
  rewrite !dict_get_set_other by discriminate. reflexivity.
Qed.

(** The SKU test can only raise the [KeyError] of a missing [sku]. *)
Lemma any_same_sku_raises (products : list pydict) (product : pydict) (e : exn) :
  Service.any_same_sku products product = Raise e -> e = KeyError "sku".
Proof.
  induction products as [|p ps IH]; simpl; try discriminate.
  unfold subscript.
  destruct (dict_get "sku" p); simpl; [|congruence].
  destruct (dict_get "sku" product) as [b|]; simpl; [|congruence].
  destruct (py_eq j b); [discriminate|exact IH].
Qed.

Lemma create_product_cases (product : Schema.Product.t) (uuid4 : Schema.UUID)
  (utcnow : string) (s : fs) :
  Main.create_product product uuid4 utcnow s =
  let record := Store.created_record product uuid4 utcnow in
  match Service.any_same_sku (Store.collection s) record with
  | Return true =>
      (Raise (HTTPException 400
                (Service.sku_exists (JStr (Schema.Product.sku product)))), s)
  | Return false =>
      (Return (Schema.Product.model_dump product),
       Some (Store.collection s ++ [record]))
  | Raise e => (Raise e, s)
  end.
Proof.
  unfold Main.create_product, except_ValueError, bind, ret, raise.
  fold (Store.created_record product uuid4 utcnow).
  rewrite add_product_cases. cbv zeta.
  destruct (Service.any_same_sku (Store.collection s)
              (Store.created_record product uuid4 utcnow)) as [[|]|e] eqn:Eany.
  - unfold subscript. rewrite created_record_sku. reflexivity.
  - reflexivity.
  - apply any_same_sku_raises in Eany. subst e. reflexivity.
Qed.

Lemma load_products_collection (s : fs) :
  Service.load_products s = (Return (Store.collection s), s).
Proof. now destruct s. Qed.

Lemma find_product_reads (product_id : string) (products : list pydict)
  (s s' : fs) (got : pydict) :
  Main.find_product product_id products s = (Return got, s') ->
  s' = s /\ In got products.
Proof.
  induction products as [|p ps IH]; simpl.
  - unfold raise. discriminate.
  - unfold bind, lift. destruct (subscript p "id") as [v|e]; try discriminate.
    destruct (py_eq v (JStr product_id)).
    + unfold ret. intros [= <- <-]. auto.
    + intros H. destruct (IH H). auto.
Qed.

Lemma get_product_by_id_reads (product_id : string) (s s' : fs) (got : pydict) :
  Main.get_product_by_id product_id s = (Return got, s') ->
  s' = s /\ In got (Store.collection s).
Proof.
  unfold Main.get_product_by_id, Service.get_all_products, bind.
  rewrite load_products_collection. apply find_product_reads.
Qed.

(** C5, as the code has it.  The derived fields are persisted: the
    record a successful create appends to the collection is the dump of
    the product, which holds [discounted_price] and [volume_cm3] as
    computed at creation; and a read hands back a stored record as it
    is, writing nothing and recomputing nothing. *)
Theorem derived_fields_are_persisted (product : Schema.Product.t)
  (uuid4 : Schema.UUID) (utcnow : string) (s s' : fs) (response : pydict) :
  Main.create_product product uuid4 utcnow s = (Return response, s') ->
  exists record,
    Store.collection s' = Store.collection s ++ [record] /\
    dict_get "discounted_price" record =
    Some (ser_opt ser_float (Schema.Product.discounted_price product)) /\
    dict_get "volume_cm3" record =
    Some (ser_float (Schema.Product.volume_cm3 product)) /\
    forall product_id got s'',
      Main.get_product_by_id product_id s' = (Return got, s'') ->
      s'' = s' /\ In got (Store.collection s').
Proof.
  rewrite create_product_cases. cbv zeta.
  destruct (Service.any_same_sku (Store.collection s)
              (Store.created_record product uuid4 utcnow)) as [[|]|e];
    try discriminate.
  intros [= <- <-]. exists (Store.created_record product uuid4 utcnow).
  split; [reflexivity|].
  split; [reflexivity|]. split; [reflexivity|].
  intros product_id got s''. apply get_product_by_id_reads.
Qed.

Lemma derived_fields_are_persisted_witness :
  exists response s',
    Main.create_product Sample.mouse Sample.id_b "2024-05-01T10:00:00" None =
    (Return response, s') /\
    exists record,
      Store.collection s' = Store.collection None ++ [record] /\
      dict_get "discounted_price" record =
      Some (ser_opt ser_float (Schema.Product.discounted_price Sample.mouse)) /\
      dict_get "volume_cm3" record =
      Some (ser_float (Schema.Product.volume_cm3 Sample.mouse)) /\
      forall product_id got s'',
        Main.get_product_by_id product_id s' = (Return got, s'') ->
        s'' = s' /\ In got (Store.collection s').
Proof.
  do 2 eexists. split; [vm_compute; reflexivity|].
  eapply (@derived_fields_are_persisted Sample.mouse Sample.id_b
            "2024-05-01T10:00:00" None).
  vm_compute. reflexivity.
Defined.

(** C5 fails as stated.  Creating the mouse (price 20.0, discount 10,
    box of 10 x 5 x 2) on an empty store writes a record that holds
    [discounted_price] 18.0 and [volume_cm3] 100.0. *)
Lemma create_stores_derived_fields :
  exists record,
    snd (Main.create_product Sample.mouse Sample.id_b "2024-05-01T10:00:00" None)
    = Some [record] /\
    dict_get "discounted_price" record = Some (JFloat (of_Z 18)) /\
    dict_get "volume_cm3" record = Some (JFloat (of_Z 100)).
Proof.
  eexists. split; [vm_compute; reflexivity|].
  split; vm_compute; reflexivity.
Qed.

(** ** The seller e-mail allow-list *)

Lemma split_not_nil (sep : ascii) (s : string) : split sep s <> [].
Proof.
  destruct s as [|c s]; simpl; try discriminate.
  destruct (Ascii.eqb c sep); try discriminate.
  destruct (split sep s); discriminate.
Qed.

(** The pieces of [local @ rest] end with the pieces of [rest]. *)
Lemma split_app_sep (sep : ascii) (local rest : string) :
  exists pieces,
    pieces <> [] /\
    split sep (local ++ String sep rest)%string = pieces ++ split sep rest.
Proof.
  induction local as [|c local IH]; simpl.
  - rewrite Ascii.eqb_refl. exists [EmptyString]. split; [discriminate|reflexivity].
  - destruct IH as [pieces [Hne ->]].
    destruct (Ascii.eqb c sep).
    + exists (EmptyString :: pieces). split; [discriminate|reflexivity].
    + destruct pieces as [|p ps]; [contradiction|]. simpl.
      exists (String c p :: ps). split; [discriminate|reflexivity].
Qed.

Lemma last_app_not_nil (A : Type) (l l' : list A) (d : A) :
  l' <> [] -> List.last (l ++ l') d = List.last l' d.
Proof.
  intros Hne. induction l as [|x l IH]; simpl; auto.
  destruct (l ++ l') eqn:E; auto.
  apply app_eq_nil in E as [_ E]. contradiction.
Qed.

(** The domain the validators look up is what follows the last [@]. *)
Lemma domain_of_address (local domain : string) :
  item_last (split "@"%char (local ++ String "@"%char domain)%string) =
  item_last (split "@"%char domain).
Proof.
  unfold item_last.
  destruct (split_app_sep "@"%char local domain) as [pieces [_ ->]].
  apply last_app_not_nil, split_not_nil.
Qed.

(** C10.  The allow-list holds neither [ecommerce.com] nor
    [dellexclusive.in] but their concatenation; both validators reject
    every address at either domain, naming the domain, and accept every
    address at [dellexclusive.inecommerce.com]. *)
Theorem allow_list_joins_two_domains (local : string) :
  (~ In "ecommerce.com" Schema.Seller.allowed_domains /\
   ~ In "dellexclusive.in" Schema.Seller.allowed_domains /\
   In "dellexclusive.inecommerce.com" Schema.Seller.allowed_domains /\
   Schema.UpdateSeller.allowed_domains = Schema.Seller.allowed_domains) /\
  (Schema.Seller.validate_seller_email_domain (local ++ "@ecommerce.com")%string
   = Raise (ValueError (Schema.domain_message "ecommerce.com")) /\
   Schema.Seller.validate_seller_email_domain (local ++ "@dellexclusive.in")%string
   = Raise (ValueError (Schema.domain_message "dellexclusive.in")) /\
   Schema.Seller.validate_seller_email_domain
     (local ++ "@dellexclusive.inecommerce.com")%string
   = Return (local ++ "@dellexclusive.inecommerce.com")%string) /\
  (Schema.UpdateSeller.validate_seller_email_domain
     (local ++ "@ecommerce.com")%string
   = Raise (ValueError (Schema.domain_message "ecommerce.com")) /\
   Schema.UpdateSeller.validate_seller_email_domain
     (local ++ "@dellexclusive.in")%string
   = Raise (ValueError (Schema.domain_message "dellexclusive.in")) /\
   Schema.UpdateSeller.validate_seller_email_domain
     (local ++ "@dellexclusive.inecommerce.com")%string
   = Return (local ++ "@dellexclusive.inecommerce.com")%string).
Proof.
  split; [|split].
  - split; [|split; [|split]].
    + intros H. vm_compute in H.
      repeat (destruct H as [H|H]; [discriminate H|]). exact H.
    + intros H. vm_compute in H.
      repeat (destruct H as [H|H]; [discriminate H|]). exact H.
    + vm_compute. tauto.
    + reflexivity.
  - unfold Schema.Seller.validate_seller_email_domain.
    repeat split; rewrite domain_of_address; reflexivity.
  - unfold Schema.UpdateSeller.validate_seller_email_domain.
    repeat split; rewrite domain_of_address; reflexivity.
Qed.

(** ** SKU uniqueness *)

Lemma any_same_sku_found (products : list pydict) (product : pydict) (sku : json) :
  Forall Store.has_sku products ->
  dict_get "sku" product = Some sku ->
  Exists (Store.same_sku sku) products ->
  Service.any_same_sku products product = Return true.
Proof.
  intros Hall Hsku. induction products as [|p ps IH]; intros Hex.
  - inversion Hex.
  - inversion Hall as [|? ? Hp Hps]; subst. simpl.
    unfold subscript. rewrite Hsku.
    destruct (dict_get "sku" p) as [v|] eqn:Ev; [|now contradiction Hp].
    simpl. destruct (py_eq v sku) eqn:Eq; [reflexivity|].
    apply IH; [assumption|].
    inversion Hex as [? ? [v' [Hv' Heq]]|]; subst; [|assumption].
    rewrite Ev in Hv'. injection Hv' as <-. congruence.
Qed.

Lemma any_same_sku_strings (products : list pydict) (record : pydict)
  (sku : string) :
  Forall Store.has_string_sku products ->
  dict_get "sku" record = Some (JStr sku) ->
  (In (Some (JStr sku)) (Store.skus products) /\
   Service.any_same_sku products record = Return true) \/
  (~ In (Some (JStr sku)) (Store.skus products) /\
   Service.any_same_sku products record = Return false).
Proof.
  intros Hall Hsku. induction products as [|p ps IH].
  - right. split; [intros []|reflexivity].
  - inversion Hall as [|? ? [s Hp] Hps]; subst. simpl.
    unfold subscript. rewrite Hsku, Hp. simpl.
    destruct (String.eqb s sku) eqn:E.
    + apply String.eqb_eq in E. subst s. left. split; [now left|reflexivity].
    + apply eqb_false_neq in E.
      destruct (IH Hps) as [[Hin ->]|[Hnin ->]].
      * left. split; [now right|reflexivity].
      * right. split; [|reflexivity].
        intros [Heq|Hin]; [congruence|contradiction].
Qed.

Lemma NoDup_snoc (A : Type) (l : list A) (x : A) :
  NoDup l -> ~ In x l -> NoDup (l ++ [x]).
Proof.
  induction l as [|y l IH]; simpl; intros Hnd Hnin.
  - constructor; [intros []|constructor].
  - inversion Hnd as [|? ? Hy Hl]; subst. constructor.
    + rewrite in_app_iff. simpl. intros [Hin|[Heq|[]]]; [contradiction|].
      apply Hnin. now left.
    + apply IH; auto.
Qed.

Lemma nth_error_cut (A : Type) (l : list A) (n : nat) (x : A) :
  nth_error l n = Some x -> l = firstn n l ++ x :: skipn (S n) l.
Proof.
  revert n. induction l as [|y l IH]; intros [|n]; simpl; try discriminate.
  - now intros [= ->].
  - intros H. f_equal. now apply IH.
Qed.

Lemma sku_unique_snoc (products : list pydict) (record : pydict) (sku : string) :
  Store.sku_unique products ->
  dict_get "sku" record = Some (JStr sku) ->
  ~ In (Some (JStr sku)) (Store.skus products) ->
  Store.sku_unique (products ++ [record]).
Proof.
  intros [Hall Hnd] Hsku Hnin. split.
  - apply Forall_app. split; [assumption|].
    constructor; [now exists sku|constructor].
  - unfold Store.skus in *. rewrite map_app. simpl. rewrite Hsku.
    now apply NoDup_snoc.
Qed.

Lemma sku_unique_pop (products : list pydict) (idx : nat) (x : pydict) :
  Store.sku_unique products ->
  nth_error products idx = Some x ->
  Store.sku_unique (firstn idx products ++ skipn (S idx) products).
Proof.
  intros [Hall Hnd] Hnth.
  pose proof (nth_error_cut products idx Hnth) as Hcut.
  rewrite Hcut in Hall, Hnd. split.
  - apply Forall_app in Hall as [H1 H2]. inversion H2; subst.
    apply Forall_app. now split.
  - unfold Store.skus in *. rewrite map_app in *. simpl in Hnd.
    now apply NoDup_remove_1 in Hnd.
Qed.

(** A handler that answers [ValueError] with another exception writes
    what the call it guards wrote. *)
Lemma except_raise_state (A : Type) (c : M A) (status : Z) (s : fs) :
  snd (except_ValueError c (fun e => raise (HTTPException status e)) s) = snd (c s).
Proof.
  unfold except_ValueError, raise.
  destruct (c s) as [[a|e] s']; [reflexivity|]. now destruct e.
Qed.

Lemma remove_loop_state (id : string) (products : list pydict)
  (todo : list (nat * pydict)) (s : fs) :
  snd (Service.remove_loop id products todo s) = s \/
  exists idx x,
    nth_error products idx = Some x /\
    snd (Service.remove_loop id products todo s) =
    Some (firstn idx products ++ skipn (S idx) products).
Proof.
  induction todo as [|[idx p] todo IH]; simpl.
  - now left.
  - unfold bind, lift. destruct (subscript p "id") as [v|e]; [|now left].
    destruct (py_eq v (JStr id)); [|exact IH].
    unfold list_pop. destruct (nth_error products idx) as [x|] eqn:E; [|now left].
    right. exists idx, x. split; [assumption|reflexivity].
Qed.

Lemma delete_keeps_sku_unique (product_id : Schema.UUID) (s : fs) :
  Store.sku_unique (Store.collection s) ->
  Store.sku_unique (Store.collection (snd (Main.delete_product product_id s))).
Proof.
  intros Hinv. unfold Main.delete_product. rewrite except_raise_state.
  unfold Service.remove_product, Service.get_all_products, bind.
  rewrite load_products_collection.
  destruct (remove_loop_state (Schema.str product_id) (Store.collection s)
              (enumerate (Store.collection s)) s) as [->|[idx [x [Hnth ->]]]].
  - assumption.
  - simpl. now apply sku_unique_pop with x.
Qed.

Lemma change_product_state (id : string) (update_data : pydict) (s : fs) :
  snd (Service.change_product id update_data s) = s \/
  exists R others,
    Store.collection s = R :: others /\
    snd (Service.change_product id update_data s) =
    Some (Service.merge R update_data :: others).
Proof.
  destruct s as [[|R others]|].
  - left. reflexivity.
  - right. exists R, others. split; [reflexivity|].
    now rewrite change_product_first.
  - left. reflexivity.
Qed.

Lemma update_keeps_sku_unique (product_id : Schema.UUID)
  (payload : Schema.Update_Product.t) (s : fs) :
  Store.sku_unique (Store.collection s) ->
  Store.sku_unique (Store.collection (snd (Main.update_product product_id payload s))).
Proof.
  intros Hinv. unfold Main.update_product. rewrite except_raise_state.
  unfold bind, lift.
  destruct (Schema.Update_Product.model_dump_exclude_unset payload) as [U|e] eqn:Ed;
    [|assumption].
  destruct (change_product_state (Schema.str product_id) U s)
    as [->|[R [others [Hcol ->]]]]; [assumption|].
  simpl. rewrite Hcol in Hinv. destruct Hinv as [Hall Hnd].
  pose proof (merge_absent U R "sku" (dump_no_sku payload Ed)) as Hsame.
  split.
  - inversion Hall as [|? ? [sku HR] Hothers]; subst.
    constructor; [|assumption]. exists sku. now rewrite Hsame.
  - unfold Store.skus in *. simpl in *. now rewrite Hsame.
Qed.

Lemma create_keeps_sku_unique (product : Schema.Product.t) (uuid4 : Schema.UUID)
  (utcnow : string) (s : fs) :
  Store.sku_unique (Store.collection s) ->
  Store.sku_unique
    (Store.collection (snd (Main.create_product product uuid4 utcnow s))).
Proof.
  intros Hinv. rewrite create_product_cases. cbv zeta.
  destruct (any_same_sku_strings (Store.created_record product uuid4 utcnow)
              (proj1 Hinv) (created_record_sku product uuid4 utcnow))
    as [[_ ->]|[Hnin ->]]; [assumption|].
  simpl. eapply sku_unique_snoc; eauto. apply created_record_sku.
Qed.

Lemma find_product_state (product_id : string) (products : list pydict) (s : fs) :
  snd (Main.find_product product_id products s) = s.
Proof.
  induction products as [|p ps IH]; simpl; [reflexivity|].
  unfold bind, lift. destruct (subscript p "id") as [v|e]; [|reflexivity].
  destruct (py_eq v (JStr product_id)); [reflexivity|exact IH].
Qed.

Lemma serve_keeps_sku_unique (s : fs) (r : Store.request) :
  Store.sku_unique (Store.collection s) ->
  Store.sku_unique (Store.collection (Store.serve s r)).
Proof.
  intros Hinv. destruct r; simpl.
  - now apply create_keeps_sku_unique.
  - now apply delete_keeps_sku_unique.
  - now apply update_keeps_sku_unique.
  - now apply update_keeps_sku_unique.
  - unfold Main.get_product_by_id, Service.get_all_products, bind.
    now rewrite load_products_collection, find_product_state.
Qed.

Lemma serve_all_keeps_sku_unique (requests : list Store.request) (s : fs) :
  Store.sku_unique (Store.collection s) ->
  Store.sku_unique (Store.collection (Store.serve_all s requests)).
Proof.
  revert s. induction requests as [|r rs IH]; intros s Hinv; simpl.
  - assumption.
  - apply IH. now apply serve_keeps_sku_unique.
Qed.

(** C6.  Adding a product whose SKU equals that of a stored record
    raises the [ValueError] of a duplicate SKU and leaves the file as it
    was, and so does the create route, as a client error; hence, from a
    collection with pairwise distinct SKUs (the empty one, or no file at
    all), every sequence of requests leaves the SKUs pairwise distinct. *)
Theorem duplicate_sku_rejected (s : fs) :
  (forall product sku,
      Forall Store.has_sku (Store.collection s) ->
      dict_get "sku" product = Some sku ->
      Exists (Store.same_sku sku) (Store.collection s) ->
      Service.add_product product s =
      (Raise (ValueError (Service.sku_exists sku)), s)) /\
  (forall product uuid4 utcnow,
      Store.sku_unique (Store.collection s) ->
      In (Some (JStr (Schema.Product.sku product)))
         (Store.skus (Store.collection s)) ->
      Main.create_product product uuid4 utcnow s =
      (Raise (HTTPException 400
                (Service.sku_exists (JStr (Schema.Product.sku product)))), s)) /\
  (forall requests,
      Store.sku_unique (Store.collection s) ->
      Store.sku_unique (Store.collection (Store.serve_all s requests))) /\
  (forall requests,
      Store.sku_unique (Store.collection (Store.serve_all None requests))).
Proof.
  split; [|split; [|split]].
  - intros product sku Hall Hsku Hex.
    rewrite add_product_cases.
    rewrite (@any_same_sku_found _ product sku Hall Hsku Hex).
    unfold subscript. now rewrite Hsku.
  - intros product uuid4 utcnow Hinv Hin.
    rewrite create_product_cases. cbv zeta.
    destruct (any_same_sku_strings (Store.created_record product uuid4 utcnow)
                (proj1 Hinv) (created_record_sku product uuid4 utcnow))
      as [[_ ->]|[Hnin _]]; [reflexivity|contradiction].
  - intros requests. apply serve_all_keeps_sku_unique.
  - intros requests. apply serve_all_keeps_sku_unique.
    split; constructor.
Qed.

Lemma duplicate_sku_rejected_witness :
  let s := Some [Sample.stored Sample.mouse] in
  let requests :=
    [ Store.POST Sample.keyboard Sample.id_b "2024-05-01T10:00:00";
      Store.POST Sample.mouse Sample.id_c "2024-05-01T10:00:01";
      Store.PUT Sample.id_b (Sample.payload Sample.id_b "Mouse" (of_Z 20) Unset);
      Store.DELETE Sample.id_a ] in
  (Forall Store.has_sku (Store.collection s) /\
   dict_get "sku" (Sample.stored Sample.cable) = Some (JStr "CABLE-0001") /\
   Store.sku_unique (Store.collection s)) /\
  Service.add_product (Sample.stored Sample.mouse) s =
  (Raise (ValueError (Service.sku_exists (JStr "ABCD12345"))), s) /\
  Main.create_product Sample.mouse Sample.id_b "2024-05-01T10:00:00" s =
  (Raise (HTTPException 400 (Service.sku_exists (JStr "ABCD12345"))), s) /\
  Store.sku_unique (Store.collection (Store.serve_all s requests)) /\
  Store.sku_unique (Store.collection (Store.serve_all None requests)).
Proof.
  cbv zeta.
  assert (Hall : Forall Store.has_sku
                   (Store.collection (Some [Sample.stored Sample.mouse]))).
  { repeat constructor. discriminate. }
  assert (Hinv : Store.sku_unique
                   (Store.collection (Some [Sample.stored Sample.mouse]))).
  { split.
    - repeat constructor. now exists "ABCD12345".
    - repeat constructor. intros []. }
  destruct (duplicate_sku_rejected (Some [Sample.stored Sample.mouse]))
    as [Hadd [Hcreate [Hrun Hfresh]]].
  split; [split; [exact Hall|split; [reflexivity|exact Hinv]]|].
  split.
  { apply Hadd; [exact Hall|reflexivity|].
    constructor. exists (JStr "ABCD12345"). split; reflexivity. }
  split.
  { apply (Hcreate Sample.mouse); [exact Hinv|]. now left. }
  split.
  { apply Hrun. exact Hinv. }
  apply Hfresh.
Defined.

(** ** Derived fields *)

(** [round_half_even n d] is an integer nearest to [n / d], and the even
    one of the two when [n / d] lies half-way. *)
Lemma round_half_even_nearest (n d : Z) :
  0 <= n -> 0 < d ->
  let k := round_half_even n d in
  0 <= k /\
  Z.abs (2 * n - 2 * k * d) <= d /\
  (Z.abs (2 * n - 2 * k * d) = d -> Z.even k = true).
Proof.
  intros Hn Hd. unfold round_half_even. cbv zeta.
  pose proof (Z.div_mod n d ltac:(lia)) as Hdm.
  pose proof (Z.mod_pos_bound n d Hd) as Hr.
  pose proof (Z.div_pos n d Hn Hd) as Hq.
  set (q := n / d) in *. set (r := n mod d) in *.
  assert (E1 : 2 * n - 2 * q * d = 2 * r) by lia.
  assert (E2 : 2 * n - 2 * (q + 1) * d = 2 * r - 2 * d) by lia.
  destruct (Z.compare_spec (2 * r) d) as [Heq|Hlt|Hgt].
  - destruct (Z.even q) eqn:Ev.
    + rewrite E1. repeat split; auto; lia.
    + rewrite E2. repeat split; try lia.
      intros _. replace (q + 1) with (Z.succ q) by lia.
      rewrite Z.even_succ, <- Z.negb_even, Ev. reflexivity.
  - rewrite E1. repeat split; lia.
  - rewrite E2. repeat split; lia.
Qed.

(** C9, as the code has it.  [discounted_price] is present exactly when
    [discount_percent] is set and is then the float
    [round(price - (discount_percent / 100) * price, 2)], and
    [volume_cm3] is the float [round(length * width * height, 2)], every
    operation rounding to the nearest binary64; [round] takes the exact
    value of its finite argument to the nearest hundredth, a tie going to
    the even one, and gives the float nearest to that decimal.  Price
    20.0 with discount 10 gives 18.0. *)
Theorem derived_fields_in_float_arithmetic (p : Schema.Product.t) :
  (Schema.Product.discounted_price p = None <->
   Schema.Product.discount_percent p = None) /\
  (forall d,
      Schema.Product.discount_percent p = Some d ->
      Schema.Product.discounted_price p =
      Some (round (fsub (Schema.Product.price p)
                     (fmul (fdiv d (of_Z 100)) (Schema.Product.price p))) 2)) /\
  Schema.Product.volume_cm3 p =
  round (fmul (fmul (Schema.Dimensions_cm.length (Schema.Product.dimensions_cm p))
                 (Schema.Dimensions_cm.width (Schema.Product.dimensions_cm p)))
           (Schema.Dimensions_cm.height (Schema.Product.dimensions_cm p))) 2 /\
  (forall s m e,
      let n := scaled_digits m e 2 in
      0 <= n /\
      round (S754_finite s m e) 2 =
      match n with
      | Zpos k => fdiv (S754_finite s k 0) (S754_finite false 100 0)
      | _ => S754_zero s
      end /\
      match e with
      | Zneg b =>
          Z.abs (2 * (Zpos m * 100) - 2 * n * 2 ^ Zpos b) <= 2 ^ Zpos b /\
          (Z.abs (2 * (Zpos m * 100) - 2 * n * 2 ^ Zpos b) = 2 ^ Zpos b ->
           Z.even n = true)
      | _ => n = Zpos m * 100 * 2 ^ e
      end) /\
  (Schema.Product.price p = of_Z 20 ->
   Schema.Product.discount_percent p = Some (of_Z 10) ->
   Schema.Product.discounted_price p = Some (of_Z 18)).
Proof.
  split; [|split; [|split; [|split]]].
  - unfold Schema.Product.discounted_price.
    destruct (Schema.Product.discount_percent p); split; congruence.
  - intros d Hd. unfold Schema.Product.discounted_price. now rewrite Hd.
  - reflexivity.
  - intros s m e. cbv zeta. unfold scaled_digits.
    change (10 ^ 2) with 100.
    destruct e as [|b|b].
    + split; [lia|]. split; [reflexivity|lia].
    + assert (Hpow : 0 < 2 ^ Zpos b) by (apply Z.pow_pos_nonneg; lia).
      split; [nia|]. split; [reflexivity|reflexivity].
    + assert (Hpow : 0 < 2 ^ Zpos b) by (apply Z.pow_pos_nonneg; lia).
      destruct (@round_half_even_nearest (Zpos m * 100) (2 ^ Zpos b)
                  ltac:(lia) Hpow) as [H0 [H1 H2]].
      split; [exact H0|]. split; [reflexivity|]. split; assumption.
  - intros Hprice Hdisc. unfold Schema.Product.discounted_price.
    rewrite Hdisc, Hprice. vm_compute. reflexivity.
Qed.

Lemma derived_fields_in_float_arithmetic_witness :
  (Schema.Product.price Sample.mouse = of_Z 20 /\
   Schema.Product.discount_percent Sample.mouse = Some (of_Z 10)) /\
  Schema.Product.discounted_price Sample.mouse = Some (of_Z 18) /\
  Schema.Product.discounted_price Sample.mouse =
  Some (round (fsub (of_Z 20) (fmul (fdiv (of_Z 10) (of_Z 100)) (of_Z 20))) 2) /\
  (Schema.Product.discounted_price Sample.keyboard = None <->
   Schema.Product.discount_percent Sample.keyboard = None).
Proof.
  split; [split; reflexivity|].
  split.
  { apply (derived_fields_in_float_arithmetic Sample.mouse); reflexivity. }
  split.
  { apply (proj1 (proj2 (derived_fields_in_float_arithmetic Sample.mouse))).
    reflexivity. }
  apply (proj1 (derived_fields_in_float_arithmetic Sample.keyboard)).
Defined.

(** C9 fails as stated.  The cable is a validated product with price 1.0
    and discount 0.5, both exact.  In exact arithmetic
    [1 - 1 * 0.5 / 100] is 0.995, which rounds to 1.00 under both tie
    rules; the code returns the float written 0.99, because the float
    difference lies just below 0.995. *)
Lemma discounted_price_is_not_the_exact_rounding :
  let price := Schema.Product.price Sample.cable in
  let discount := fdiv (of_Z 1) (of_Z 2) in
  Schema.Product.validated Sample.cable = true /\
  Schema.Product.discount_percent Sample.cable = Some discount /\
  (to_Q price == 1)%Q /\
  (to_Q discount == 1 # 2)%Q /\
  (Spec.discounted_exact (to_Q price) (to_Q discount) == 995 # 1000)%Q /\
  Spec.hundredths_half_even (Spec.discounted_exact (to_Q price) (to_Q discount))
  = 100 /\
  Spec.hundredths_half_up (Spec.discounted_exact (to_Q price) (to_Q discount))
  = 100 /\
  Schema.Product.discounted_price Sample.cable = Some (decimal2 99) /\
  decimal2 99 <> decimal2 100.
Proof.
  cbv zeta. repeat split; try (vm_compute; reflexivity).
  vm_compute. discriminate.
Qed.

(** * Further properties of the store and of the routes *)

(** ** Lists *)

Lemma enumerate_from_app (A : Type) (a b : list A) (k : nat) :
  combine (seq k (List.length (a ++ b))) (a ++ b) =
  combine (seq k (List.length a)) a ++
  combine (seq (k + List.length a) (List.length b)) b.
Proof.
  revert k. induction a as [|x a IH]; intros k; simpl.
  - now rewrite Nat.add_0_r.
  - f_equal. rewrite IH. now rewrite Nat.add_succ_r.
Qed.

Lemma list_pop_middle (A : Type) (before after : list A) (p : A) :
  list_pop (before ++ p :: after) (List.length before) =
  Return (p, before ++ after).
Proof.
  unfold list_pop.
  rewrite nth_error_app2, Nat.sub_diag by lia. cbn [nth_error].
  rewrite firstn_app, Nat.sub_diag, firstn_all, firstn_0, app_nil_r.
  rewrite skipn_app, skipn_all2 by lia.
  replace (S (List.length before) - List.length before)%nat with 1%nat by lia.
  reflexivity.
Qed.

(** ** Scanning for an identifier *)

Lemma remove_loop_scan (id : string) (products before : list pydict)
  (k : nat) (todo : list (nat * pydict)) (s : fs) :
  Forall (Store.other_id id) before ->
  Service.remove_loop id products
    (combine (seq k (List.length before)) before ++ todo) s =
  Service.remove_loop id products todo s.
Proof.
  intros Hbefore. revert k.
  induction Hbefore as [|q before [w [Hq Hne]] _ IH]; intros k; simpl.
  - reflexivity.
  - unfold bind, lift, subscript. rewrite Hq, Hne. apply IH.
Qed.

Lemma find_product_scan (id : string) (before rest : list pydict) (s : fs) :
  Forall (Store.other_id id) before ->
  Main.find_product id (before ++ rest) s = Main.find_product id rest s.
Proof.
  intros Hbefore.
  induction Hbefore as [|q before [w [Hq Hne]] _ IH]; simpl.
  - reflexivity.
  - unfold bind, lift, subscript. rewrite Hq, Hne. exact IH.
Qed.

Lemma remove_product_at (id : string) (s : fs) (before after : list pydict)
  (p : pydict) :
  Store.collection s = before ++ p :: after ->
  Forall (Store.other_id id) before ->
  Service.remove_product id s =
  Service.remove_loop id (before ++ p :: after)
    ((List.length before, p) ::
     combine (seq (S (List.length before)) (List.length after)) after) s.
Proof.
  intros Hcol Hbefore.
  unfold Service.remove_product, Service.get_all_products, bind.
  rewrite load_products_collection, Hcol. unfold enumerate.
  rewrite enumerate_from_app. simpl.
  rewrite remove_loop_scan by assumption.
  reflexivity.
Qed.

Lemma get_product_at (id : string) (s : fs) (before rest : list pydict) :
  Store.collection s = before ++ rest ->
  Forall (Store.other_id id) before ->
  Main.get_product_by_id id s = Main.find_product id rest s.
Proof.
  intros Hcol Hbefore.
  unfold Main.get_product_by_id, Service.get_all_products, bind.
  rewrite load_products_collection, Hcol.
  now apply find_product_scan.
Qed.

(** ** Delete and lookup *)

Lemma remove_product_pops (id : string) (s : fs)
  (before after : list pydict) (p : pydict) :
  Store.collection s = before ++ p :: after ->
  Forall (Store.other_id id) before ->
  Store.has_id id p ->
  Service.remove_product id s =
  (Return (Service.deleted_response p), Some (before ++ after)).
Proof.
  intros Hcol Hbefore [v [Hp Heq]].
  rewrite (remove_product_at s after p Hcol Hbefore). simpl.
  unfold bind, lift, subscript. rewrite Hp, Heq, list_pop_middle.
  reflexivity.
Qed.

(** X1.  [remove_product] takes out the first record whose identifier equals
    [id], and only that one: the records before and after it stay, in
    their order, and the record taken out is handed back. *)
Theorem remove_product_removes_first_match (id : string) (s : fs)
  (before after : list pydict) (p : pydict) :
  Store.collection s = before ++ p :: after ->
  Forall (Store.other_id id) before ->
  Store.has_id id p ->
  Service.remove_product id s =
  (Return (Service.deleted_response p), Some (before ++ after)).
Proof. apply remove_product_pops. Qed.

Lemma remove_product_removes_first_match_witness :
  let id := Schema.str Sample.id_b in
  let s := Some [Sample.stored Sample.mouse; Sample.stored Sample.keyboard;
                 Sample.stored Sample.cable] in
  Store.collection s =
  [Sample.stored Sample.mouse] ++
  Sample.stored Sample.keyboard :: [Sample.stored Sample.cable] /\
  Forall (Store.other_id id) [Sample.stored Sample.mouse] /\
  Store.has_id id (Sample.stored Sample.keyboard) /\
  Service.remove_product id s =
  (Return (Service.deleted_response (Sample.stored Sample.keyboard)),
   Some ([Sample.stored Sample.mouse] ++ [Sample.stored Sample.cable])).
Proof.
  cbv zeta.
  assert (Hbefore : Forall (Store.other_id (Schema.str Sample.id_b))
                      [Sample.stored Sample.mouse]).
  { repeat constructor. eexists. split; reflexivity. }
  assert (Hp : Store.has_id (Schema.str Sample.id_b)
                 (Sample.stored Sample.keyboard)).
  { eexists. split; reflexivity. }
  split; [reflexivity|]. split; [exact Hbefore|]. split; [exact Hp|].
  now apply remove_product_removes_first_match.
Defined.

Lemma remove_loop_raises (id : string) (products : list pydict)
  (todo : list (nat * pydict)) (s s' : fs) (e : exn) :
  Service.remove_loop id products todo s = (Raise e, s') ->
  (e = KeyError "id" \/ e = IndexError) /\ s' = s.
Proof.
  induction todo as [|[idx p] todo IH]; simpl.
  - unfold ret. discriminate.
  - unfold bind, lift, subscript.
    destruct (dict_get "id" p) as [v|]; [|intros [= <- <-]; auto].
    destruct (py_eq v (JStr id)); [|exact IH].
    unfold list_pop. destruct (nth_error products idx); [discriminate|].
    intros [= <- <-]. auto.
Qed.

(** X2.  No identifier to find: [remove_product] hands back [None] and writes
    nothing, whatever the collection; it never raises [ValueError], so
    the delete route never answers with an [HTTPException].  The data
    file is absent or holds a list of objects, as everywhere here: what
    [json.load] raises on a file that is not JSON is left out. *)
Theorem remove_product_never_reports_unknown_id (id : string)
  (product_id : Schema.UUID) (s : fs) :
  (Forall (Store.other_id id) (Store.collection s) ->
   Service.remove_product id s = (Return JNull, s)) /\
  (forall msg, fst (Service.remove_product id s) <> Raise (ValueError msg)) /\
  (forall status detail,
      fst (Main.delete_product product_id s) <>
      Raise (HTTPException status detail)).
Proof.
  assert (Hno : forall id' e s',
             Service.remove_product id' s = (Raise e, s') ->
             e = KeyError "id" \/ e = IndexError).
  { intros id' e s'.
    unfold Service.remove_product, Service.get_all_products, bind.
    rewrite load_products_collection. intros H.
    now apply remove_loop_raises in H. }
  split; [|split].
  - intros Hall.
    unfold Service.remove_product, Service.get_all_products, bind.
    rewrite load_products_collection. unfold enumerate.
    rewrite <- (app_nil_r (combine _ _)).
    now rewrite remove_loop_scan.
  - intros msg Hfst.
    destruct (Service.remove_product id s) as [o s'] eqn:E. simpl in Hfst.
    subst o. destruct (Hno _ _ _ E); discriminate.
  - intros status detail. unfold Main.delete_product, except_ValueError.
    destruct (Service.remove_product (Schema.str product_id) s) as [[r|e] s'] eqn:E;
      simpl; [discriminate|].
    destruct (Hno _ _ _ E); subst e; simpl; discriminate.
Qed.

Lemma remove_product_never_reports_unknown_id_witness :
  Forall (Store.other_id (Schema.str Sample.id_c))
    (Store.collection Sample.two_products) /\
  Service.remove_product (Schema.str Sample.id_c) Sample.two_products =
  (Return JNull, Sample.two_products).
Proof.
  assert (Hall : Forall (Store.other_id (Schema.str Sample.id_c))
                   (Store.collection Sample.two_products)).
  { repeat constructor; eexists; split; reflexivity. }
  split; [exact Hall|].
  now apply (proj1 (remove_product_never_reports_unknown_id
                      (Schema.str Sample.id_c) Sample.id_c Sample.two_products)).
Defined.

(** X3.  A stored record without [id] that the scan reaches, no earlier
    record matching, makes deletion and lookup raise [KeyError] for
    every identifier, the file being left as it was; the routes do not
    catch it. *)
Theorem record_without_id_breaks_the_scan (id : string) (s : fs)
  (before after : list pydict) (p : pydict) :
  Store.collection s = before ++ p :: after ->
  Forall (Store.other_id id) before ->
  dict_get "id" p = None ->
  Service.remove_product id s = (Raise (KeyError "id"), s) /\
  Main.delete_product (Schema.uuid id) s = (Raise (KeyError "id"), s) /\
  Main.get_product_by_id id s = (Raise (KeyError "id"), s).
Proof.
  intros Hcol Hbefore Hp.
  assert (Hremove : Service.remove_product id s = (Raise (KeyError "id"), s)).
  { rewrite (remove_product_at s after p Hcol Hbefore). simpl.
    unfold bind, lift, subscript. now rewrite Hp. }
  split; [exact Hremove|]. split.
  - unfold Main.delete_product, except_ValueError. simpl.
    now rewrite Hremove.
  - rewrite (get_product_at s (p :: after) Hcol Hbefore). simpl.
    unfold bind, lift, subscript. now rewrite Hp.
Qed.

Lemma record_without_id_breaks_the_scan_witness :
  let id := Schema.str Sample.id_b in
  let s := Some [Sample.stored Sample.mouse; Sample.nameless;
                 Sample.stored Sample.keyboard] in
  (Store.collection s =
   [Sample.stored Sample.mouse] ++
   Sample.nameless :: [Sample.stored Sample.keyboard] /\
   Forall (Store.other_id id) [Sample.stored Sample.mouse] /\
   dict_get "id" Sample.nameless = None) /\
  Service.remove_product id s = (Raise (KeyError "id"), s) /\
  Main.delete_product (Schema.uuid id) s = (Raise (KeyError "id"), s) /\
  Main.get_product_by_id id s = (Raise (KeyError "id"), s).
Proof.
  cbv zeta.
  assert (Hbefore : Forall (Store.other_id (Schema.str Sample.id_b))
                      [Sample.stored Sample.mouse]).
  { repeat constructor. eexists. split; reflexivity. }
  split; [split; [reflexivity|split; [exact Hbefore|reflexivity]]|].
  apply (@record_without_id_breaks_the_scan (Schema.str Sample.id_b) _
           [Sample.stored Sample.mouse] [Sample.stored Sample.keyboard]
           Sample.nameless); [reflexivity|exact Hbefore|reflexivity].
Defined.

Lemma get_product_found (product_id : string) (s : fs)
  (before after : list pydict) (p : pydict) :
  Store.collection s = before ++ p :: after ->
  Forall (Store.other_id product_id) before ->
  Store.has_id product_id p ->
  Main.get_product_by_id product_id s = (Return p, s).
Proof.
  intros Hcol Hbefore [v [Hp Heq]].
  rewrite (get_product_at s (p :: after) Hcol Hbefore). simpl.
  unfold bind, lift, subscript. now rewrite Hp, Heq.
Qed.

Lemma get_product_missing (product_id : string) (s : fs) :
  Forall (Store.other_id product_id) (Store.collection s) ->
  Main.get_product_by_id product_id s =
  (Raise (HTTPException 404 Main.unavailable), s).
Proof.
  intros Hall.
  rewrite (@get_product_at product_id s (Store.collection s) []);
    [reflexivity|now rewrite app_nil_r|assumption].
Qed.

(** X4.  [get_product_by_id] hands back the first record whose identifier
    equals [product_id], answers 404 when every record has another
    identifier, and in both cases leaves the file as it was. *)
Theorem get_product_by_id_finds_first_match (product_id : string) (s : fs) :
  (forall before after p,
      Store.collection s = before ++ p :: after ->
      Forall (Store.other_id product_id) before ->
      Store.has_id product_id p ->
      Main.get_product_by_id product_id s = (Return p, s)) /\
  (Forall (Store.other_id product_id) (Store.collection s) ->
   Main.get_product_by_id product_id s =
   (Raise (HTTPException 404 Main.unavailable), s)).
Proof.
  split.
  - intros before after p. apply get_product_found.
  - apply get_product_missing.
Qed.

Lemma get_product_by_id_finds_first_match_witness :
  let s := Sample.two_products in
  (Store.collection s =
   [Sample.stored Sample.mouse] ++ Sample.stored Sample.keyboard :: [] /\
   Forall (Store.other_id (Schema.str Sample.id_b)) [Sample.stored Sample.mouse] /\
   Store.has_id (Schema.str Sample.id_b) (Sample.stored Sample.keyboard) /\
   Forall (Store.other_id (Schema.str Sample.id_c)) (Store.collection s)) /\
  Main.get_product_by_id (Schema.str Sample.id_b) s =
  (Return (Sample.stored Sample.keyboard), s) /\
  Main.get_product_by_id (Schema.str Sample.id_c) s =
  (Raise (HTTPException 404 Main.unavailable), s).
Proof.
  cbv zeta.
  assert (Hbefore : Forall (Store.other_id (Schema.str Sample.id_b))
                      [Sample.stored Sample.mouse]).
  { repeat constructor. eexists. split; reflexivity. }
  assert (Hp : Store.has_id (Schema.str Sample.id_b)
                 (Sample.stored Sample.keyboard)).
  { eexists. split; reflexivity. }
  assert (Hall : Forall (Store.other_id (Schema.str Sample.id_c))
                   (Store.collection Sample.two_products)).
  { repeat constructor; eexists; split; reflexivity. }
  split; [split; [reflexivity|split; [exact Hbefore|split; [exact Hp|exact Hall]]]|].
  split.
  - apply (proj1 (get_product_by_id_finds_first_match
                    (Schema.str Sample.id_b) Sample.two_products)
             [Sample.stored Sample.mouse] [] (Sample.stored Sample.keyboard));
      [reflexivity|exact Hbefore|exact Hp].
  - apply (proj2 (get_product_by_id_finds_first_match
                    (Schema.str Sample.id_c) Sample.two_products)).
    exact Hall.
Defined.

(** X5.  Delete, then look the identifier up: when no other record has it,
    the lookup after a delete answers 404. *)
Theorem delete_then_get_is_not_found (id : string) (s : fs)
  (before after : list pydict) (p : pydict) :
  Store.collection s = before ++ p :: after ->
  Forall (Store.other_id id) before ->
  Store.has_id id p ->
  Forall (Store.other_id id) after ->
  exists s',
    Service.remove_product id s = (Return (Service.deleted_response p), s') /\
    Store.collection s' = before ++ after /\
    Main.get_product_by_id id s' =
    (Raise (HTTPException 404 Main.unavailable), s').
Proof.
  intros Hcol Hbefore Hp Hafter. exists (Some (before ++ after)).
  split; [now apply remove_product_pops|].
  split; [reflexivity|].
  apply get_product_missing. simpl.
  apply Forall_app. now split.
Qed.

Lemma delete_then_get_is_not_found_witness :
  let id := Schema.str Sample.id_a in
  (Store.collection Sample.two_products =
   [] ++ Sample.stored Sample.mouse :: [Sample.stored Sample.keyboard] /\
   Forall (Store.other_id id) [] /\
   Store.has_id id (Sample.stored Sample.mouse) /\
   Forall (Store.other_id id) [Sample.stored Sample.keyboard]) /\
  exists s',
    Service.remove_product id Sample.two_products =
    (Return (Service.deleted_response (Sample.stored Sample.mouse)), s') /\
    Store.collection s' = [] ++ [Sample.stored Sample.keyboard] /\
    Main.get_product_by_id id s' =
    (Raise (HTTPException 404 Main.unavailable), s').
Proof.
  cbv zeta.
  assert (Hp : Store.has_id (Schema.str Sample.id_a) (Sample.stored Sample.mouse)).
  { eexists. split; reflexivity. }
  assert (Hafter : Forall (Store.other_id (Schema.str Sample.id_a))
                     [Sample.stored Sample.keyboard]).
  { repeat constructor. eexists. split; reflexivity. }
  split; [split; [reflexivity|split; [constructor|split; [exact Hp|exact Hafter]]]|].
  apply (@delete_then_get_is_not_found (Schema.str Sample.id_a)
           Sample.two_products [] [Sample.stored Sample.keyboard]
           (Sample.stored Sample.mouse));
    [reflexivity|constructor|exact Hp|exact Hafter].
Defined.

(** ** Create *)

Lemma any_same_sku_none (products : list pydict) (product : pydict) (sku : json) :
  Forall (Store.other_sku sku) products ->
  dict_get "sku" product = Some sku ->
  Service.any_same_sku products product = Return false.
Proof.
  intros Hall Hsku.
  induction Hall as [|p ps [v [Hp Hne]] _ IH]; simpl; [reflexivity|].
  unfold subscript. rewrite Hp, Hsku. simpl. now rewrite Hne.
Qed.

(** X6.  A product whose SKU no stored record has goes to the end of the
    collection: the records already there stay, in their order, and the
    product is handed back. *)
Theorem add_product_appends (product : pydict) (sku : json) (s : fs) :
  Forall (Store.other_sku sku) (Store.collection s) ->
  dict_get "sku" product = Some sku ->
  Service.add_product product s =
  (Return product, Some (Store.collection s ++ [product])).
Proof.
  intros Hall Hsku.
  rewrite add_product_cases.
  now rewrite (@any_same_sku_none _ product sku Hall Hsku).
Qed.

Lemma add_product_appends_witness :
  Forall (Store.other_sku (JStr "CABLE-0001"))
    (Store.collection Sample.two_products) /\
  dict_get "sku" (Sample.stored Sample.cable) = Some (JStr "CABLE-0001") /\
  Service.add_product (Sample.stored Sample.cable) Sample.two_products =
  (Return (Sample.stored Sample.cable),
   Some (Store.collection Sample.two_products ++ [Sample.stored Sample.cable])).
Proof.
  assert (Hall : Forall (Store.other_sku (JStr "CABLE-0001"))
                   (Store.collection Sample.two_products)).
  { repeat constructor; eexists; split; reflexivity. }
  split; [exact Hall|]. split; [reflexivity|].
  apply (@add_product_appends (Sample.stored Sample.cable) (JStr "CABLE-0001"));
    [exact Hall|reflexivity].
Defined.

(** X7.  Missing SKUs.  On an empty collection the SKU test compares nothing,
    so any dict is stored, with or without [sku]; on any other, a stored
    record without [sku] that the test reaches, or a product without
    [sku], raises [KeyError] and nothing is written. *)
Theorem add_product_without_sku (product : pydict) (s : fs) :
  (Store.collection s = [] ->
   Service.add_product product s = (Return product, Some [product])) /\
  (forall sku before p after,
      Store.collection s = before ++ p :: after ->
      dict_get "sku" product = Some sku ->
      Forall (Store.other_sku sku) before ->
      dict_get "sku" p = None ->
      Service.add_product product s = (Raise (KeyError "sku"), s)) /\
  (forall p rest,
      Store.collection s = p :: rest ->
      Store.has_sku p ->
      dict_get "sku" product = None ->
      Service.add_product product s = (Raise (KeyError "sku"), s)).
Proof.
  split; [|split].
  - intros Hcol. rewrite add_product_cases, Hcol. reflexivity.
  - intros sku before p after Hcol Hsku Hbefore Hp.
    rewrite add_product_cases, Hcol. clear Hcol.
    assert (Hany : Service.any_same_sku (before ++ p :: after) product =
                   Raise (KeyError "sku")).
    { induction Hbefore as [|q qs [v [Hq Hne]] _ IH]; simpl.
      - unfold subscript. now rewrite Hp.
      - unfold subscript. rewrite Hq, Hsku. simpl. now rewrite Hne. }
    now rewrite Hany.
  - intros p rest Hcol Hp Hsku.
    rewrite add_product_cases, Hcol. simpl. unfold subscript.
    unfold Store.has_sku in Hp.
    destruct (dict_get "sku" p) as [v|]; [|now contradiction Hp].
    simpl. now rewrite Hsku.
Qed.

Lemma add_product_without_sku_witness :
  (Store.collection None = [] /\
   Store.collection (Some [Sample.nameless; Sample.stored Sample.mouse]) =
   [] ++ Sample.nameless :: [Sample.stored Sample.mouse] /\
   dict_get "sku" (Sample.stored Sample.cable) = Some (JStr "CABLE-0001") /\
   dict_get "sku" Sample.nameless = None /\
   Store.has_sku (Sample.stored Sample.mouse)) /\
  Service.add_product Sample.nameless None =
  (Return Sample.nameless, Some [Sample.nameless]) /\
  Service.add_product (Sample.stored Sample.cable)
    (Some [Sample.nameless; Sample.stored Sample.mouse]) =
  (Raise (KeyError "sku"), Some [Sample.nameless; Sample.stored Sample.mouse]) /\
  Service.add_product Sample.nameless (Some [Sample.stored Sample.mouse]) =
  (Raise (KeyError "sku"), Some [Sample.stored Sample.mouse]).
Proof.
  assert (Hmouse : Store.has_sku (Sample.stored Sample.mouse)) by discriminate.
  split; [repeat split; try reflexivity; exact Hmouse|].
  split.
  { apply (proj1 (add_product_without_sku Sample.nameless None)). reflexivity. }
  split.
  { apply (proj1 (proj2 (add_product_without_sku (Sample.stored Sample.cable)
                           (Some [Sample.nameless; Sample.stored Sample.mouse])))
             (JStr "CABLE-0001") [] Sample.nameless [Sample.stored Sample.mouse]);
      [reflexivity|reflexivity|constructor|reflexivity]. }
  apply (proj2 (proj2 (add_product_without_sku Sample.nameless
                         (Some [Sample.stored Sample.mouse])))
           (Sample.stored Sample.mouse) []);
    [reflexivity|exact Hmouse|reflexivity].
Defined.

Lemma created_record_other (product : Schema.Product.t) (uuid4 : Schema.UUID)
  (utcnow key : string) :
  key <> "id" -> key <> "created_at" ->
  dict_get key (Store.created_record product uuid4 utcnow) =
  dict_get key (Schema.Product.model_dump product).
Proof.
  intros Hid Hat. unfold Store.created_record.
  now rewrite !dict_get_set_other.
Qed.

Lemma created_record_id (product : Schema.Product.t) (uuid4 : Schema.UUID)
  (utcnow : string) :
  dict_get "id" (Store.created_record product uuid4 utcnow) =
  Some (JStr (Schema.str uuid4)).
Proof.
  unfold Store.created_record.
  rewrite dict_get_set_other by discriminate. apply dict_get_set_same.
Qed.

(** X8.  Create, then look the new identifier up.  The record found is the
    dump of the product with the identifier and the timestamp the server
    assigned, every other field as in the answer of the create; the
    answer itself still shows the identifier the client sent, not the
    assigned one. *)
Theorem create_then_get (product : Schema.Product.t) (uuid4 : Schema.UUID)
  (utcnow : string) (s s' : fs) (response : pydict) :
  Main.create_product product uuid4 utcnow s = (Return response, s') ->
  Forall (Store.other_id (Schema.str uuid4)) (Store.collection s) ->
  exists record,
    Main.get_product_by_id (Schema.str uuid4) s' = (Return record, s') /\
    Store.collection s' = Store.collection s ++ [record] /\
    dict_get "id" record = Some (JStr (Schema.str uuid4)) /\
    dict_get "created_at" record = Some (JStr (utcnow ++ "Z")%string) /\
    (forall key, key <> "id" -> key <> "created_at" ->
                 dict_get key record = dict_get key response) /\
    dict_get "id" response =
    Some (JStr (Schema.str (Schema.Product.id product))).
Proof.
  rewrite create_product_cases. cbv zeta.
  destruct (Service.any_same_sku (Store.collection s)
              (Store.created_record product uuid4 utcnow)) as [[|]|e];
    try discriminate.
  intros [= <- <-] Hfresh.
  exists (Store.created_record product uuid4 utcnow).
  split.
  { apply (@get_product_found (Schema.str uuid4) _ (Store.collection s) []);
      [reflexivity|assumption|].
    exists (JStr (Schema.str uuid4)). split; [apply created_record_id|].
    simpl. apply String.eqb_refl. }
  split; [reflexivity|]. split; [apply created_record_id|].
  split; [apply dict_get_set_same|].
  split; [intros key; apply created_record_other|reflexivity].
Qed.

Lemma create_then_get_witness :
  exists response s',
    (Main.create_product Sample.cable Sample.id_b "2024-05-01T10:00:00"
       (Some [Sample.stored Sample.mouse]) = (Return response, s') /\
     Forall (Store.other_id (Schema.str Sample.id_b))
       (Store.collection (Some [Sample.stored Sample.mouse]))) /\
    exists record,
      Main.get_product_by_id (Schema.str Sample.id_b) s' = (Return record, s') /\
      Store.collection s' =
      Store.collection (Some [Sample.stored Sample.mouse]) ++ [record] /\
      dict_get "id" record = Some (JStr (Schema.str Sample.id_b)) /\
      dict_get "created_at" record = Some (JStr "2024-05-01T10:00:00Z") /\
      (forall key, key <> "id" -> key <> "created_at" ->
                   dict_get key record = dict_get key response) /\
      dict_get "id" response = Some (JStr (Schema.str Sample.id_c)).
Proof.
  assert (Hfresh : Forall (Store.other_id (Schema.str Sample.id_b))
                     (Store.collection (Some [Sample.stored Sample.mouse]))).
  { repeat constructor. eexists. split; reflexivity. }
  do 2 eexists. split; [split; [vm_compute; reflexivity|exact Hfresh]|].
  eapply (@create_then_get Sample.cable Sample.id_b "2024-05-01T10:00:00"
            (Some [Sample.stored Sample.mouse])); [|exact Hfresh].
  vm_compute. reflexivity.
Defined.

(** ** Failures write nothing *)

Lemma add_product_raise_state (product : pydict) (s s' : fs) (e : exn) :
  Service.add_product product s = (Raise e, s') -> s' = s.
Proof.
  rewrite add_product_cases.
  destruct (Service.any_same_sku (Store.collection s) product) as [[|]|e'].
  - destruct (subscript product "sku"); now intros [= _ <-].
  - discriminate.
  - now intros [= _ <-].
Qed.

Lemma remove_product_raise_state (id : string) (s s' : fs) (e : exn) :
  Service.remove_product id s = (Raise e, s') -> s' = s.
Proof.
  unfold Service.remove_product, Service.get_all_products, bind.
  rewrite load_products_collection. intros H.
  now apply remove_loop_raises in H.
Qed.

Lemma change_product_raise_state (id : string) (update_data : pydict)
  (s s' : fs) (e : exn) :
  Service.change_product id update_data s = (Raise e, s') -> s' = s.
Proof.
  destruct s as [[|R others]|].
  - now intros [= _ <-].
  - rewrite change_product_first. discriminate.
  - now intros [= _ <-].
Qed.

Lemma except_raise_outcome (A : Type) (c : M A) (status : Z) (s s' : fs) (e : exn) :
  except_ValueError c (fun msg => raise (HTTPException status msg)) s = (Raise e, s') ->
  exists e', c s = (Raise e', s').
Proof.
  unfold except_ValueError, raise.
  destruct (c s) as [[a|e'] s0]; [discriminate|].
  destruct e'; intros [= _ <-]; eauto.
Qed.

(** X9.  No partial write: whenever an operation of the store or a route
    handler raises, the data file is what it was before the call. *)
Theorem failed_operation_writes_nothing (s s' : fs) (e : exn) :
  (forall product, Service.add_product product s = (Raise e, s') -> s' = s) /\
  (forall id, Service.remove_product id s = (Raise e, s') -> s' = s) /\
  (forall id update_data,
      Service.change_product id update_data s = (Raise e, s') -> s' = s) /\
  (forall product uuid4 utcnow,
      Main.create_product product uuid4 utcnow s = (Raise e, s') -> s' = s) /\
  (forall product_id,
      Main.delete_product product_id s = (Raise e, s') -> s' = s) /\
  (forall product_id payload,
      Main.update_product product_id payload s = (Raise e, s') -> s' = s) /\
  (forall product_id payload,
      Main.patch_product product_id payload s = (Raise e, s') -> s' = s) /\
  (forall product_id,
      Main.get_product_by_id product_id s = (Raise e, s') -> s' = s).
Proof.
  assert (Hupdate : forall product_id payload,
             Main.update_product product_id payload s = (Raise e, s') -> s' = s).
  { intros product_id payload H.
    apply except_raise_outcome in H as [e' H]. revert H.
    unfold bind, lift.
    destruct (Schema.Update_Product.model_dump_exclude_unset payload) as [U|e0].
    - apply change_product_raise_state.
    - now intros [= _ <-]. }
  repeat split.
  - intros product. apply add_product_raise_state.
  - intros id. apply remove_product_raise_state.
  - intros id update_data. apply change_product_raise_state.
  - intros product uuid4 utcnow. rewrite create_product_cases. cbv zeta.
    destruct (Service.any_same_sku (Store.collection s)
                (Store.created_record product uuid4 utcnow)) as [[|]|e'];
      try discriminate; now intros [= _ <-].
  - intros product_id H.
    apply except_raise_outcome in H as [e' H].
    now apply remove_product_raise_state in H.
  - exact Hupdate.
  - exact Hupdate.
  - intros product_id H.
    pose proof (f_equal snd H) as Hs. simpl in Hs. rewrite <- Hs.
    unfold Main.get_product_by_id, Service.get_all_products, bind.
    now rewrite load_products_collection, find_product_state.
Qed.

Lemma failed_operation_writes_nothing_witness :
  exists e s',
    Service.add_product (Sample.stored Sample.mouse) Sample.two_products =
    (Raise e, s') /\
    s' = Sample.two_products.
Proof.
  exists (ValueError (Service.sku_exists (JStr "ABCD12345"))), Sample.two_products.
  split; [vm_compute; reflexivity|].
  apply (proj1 (failed_operation_writes_nothing Sample.two_products
                  Sample.two_products
                  (ValueError (Service.sku_exists (JStr "ABCD12345"))))
           (Sample.stored Sample.mouse)).
  vm_compute. reflexivity.
Defined.

(** ** Update on an empty collection, and the SKUs under update *)

(** X10.  The update routes answer 404 exactly on an empty collection (no data
    file, or an empty list in it), where [change_product] raises its
    [ValueError] and does not create the file; on any other collection
    they answer with the rewritten first record, whatever the identifier
    asked for. *)
Theorem update_is_not_found_only_on_empty (product_id : Schema.UUID)
  (payload : Schema.Update_Product.t) (update_data : pydict) (s : fs) :
  Schema.Update_Product.model_dump_exclude_unset payload = Return update_data ->
  (Store.collection s = [] ->
   Service.change_product (Schema.str product_id) update_data s =
   (Raise (ValueError (Service.id_not_found (Schema.str product_id))), s) /\
   Main.update_product product_id payload s =
   (Raise (HTTPException 404 (Service.id_not_found (Schema.str product_id))), s) /\
   Main.patch_product product_id payload s =
   (Raise (HTTPException 404 (Service.id_not_found (Schema.str product_id))), s)) /\
  (forall R others,
      Store.collection s = R :: others ->
      Main.update_product product_id payload s =
      (Return (Service.merge R update_data),
       Some (Service.merge R update_data :: others)) /\
      Main.patch_product product_id payload s =
      (Return (Service.merge R update_data),
       Some (Service.merge R update_data :: others))).
Proof.
  intros Hdump. split.
  - intros Hcol.
    assert (Hchange :
      Service.change_product (Schema.str product_id) update_data s =
      (Raise (ValueError (Service.id_not_found (Schema.str product_id))), s))
      by now apply change_product_empty.
    assert (Hroute :
      Main.update_product product_id payload s =
      (Raise (HTTPException 404 (Service.id_not_found (Schema.str product_id))), s)).
    { unfold Main.update_product, except_ValueError, bind, lift.
      now rewrite Hdump, Hchange. }
    repeat split; assumption.
  - intros R others Hcol.
    assert (Hs : s = Some (R :: others)).
    { destruct s as [products|]; simpl in Hcol; [now subst|discriminate]. }
    subst s.
    assert (Hroute :
      Main.update_product product_id payload (Some (R :: others)) =
      (Return (Service.merge R update_data),
       Some (Service.merge R update_data :: others)))
      by now rewrite update_product_first, Hdump.
    split; exact Hroute.
Qed.

Lemma update_is_not_found_only_on_empty_witness :
  let payload := Sample.payload Sample.id_a "Mouse II" (of_Z 20) Unset in
  exists update_data,
    (Schema.Update_Product.validated payload = true /\
     Schema.Update_Product.model_dump_exclude_unset payload = Return update_data /\
     Store.collection None = [] /\
     Store.collection Sample.two_products =
     Sample.stored Sample.mouse :: [Sample.stored Sample.keyboard]) /\
    (Service.change_product (Schema.str Sample.id_a) update_data None =
     (Raise (ValueError (Service.id_not_found (Schema.str Sample.id_a))), None) /\
     Main.update_product Sample.id_a payload None =
     (Raise (HTTPException 404 (Service.id_not_found (Schema.str Sample.id_a))),
      None) /\
     Main.patch_product Sample.id_a payload None =
     (Raise (HTTPException 404 (Service.id_not_found (Schema.str Sample.id_a))),
      None)) /\
    Main.update_product Sample.id_a payload Sample.two_products =
    (Return (Service.merge (Sample.stored Sample.mouse) update_data),
     Some [Service.merge (Sample.stored Sample.mouse) update_data;
           Sample.stored Sample.keyboard]) /\
    Main.patch_product Sample.id_a payload Sample.two_products =
    (Return (Service.merge (Sample.stored Sample.mouse) update_data),
     Some [Service.merge (Sample.stored Sample.mouse) update_data;
           Sample.stored Sample.keyboard]).
Proof.
  cbv zeta.
  assert (Hdump : exists update_data,
    Schema.Update_Product.model_dump_exclude_unset
      (Sample.payload Sample.id_a "Mouse II" (of_Z 20) Unset) = Return update_data).
  { eexists. vm_compute. reflexivity. }
  destruct Hdump as [update_data Hdump]. exists update_data.
  split; [split; [vm_compute; reflexivity|];
          split; [exact Hdump|]; split; reflexivity|].
  split.
  - apply (proj1 (@update_is_not_found_only_on_empty Sample.id_a
                    (Sample.payload Sample.id_a "Mouse II" (of_Z 20) Unset)
                    update_data None Hdump)).
    reflexivity.
  - apply (proj2 (@update_is_not_found_only_on_empty Sample.id_a
                    (Sample.payload Sample.id_a "Mouse II" (of_Z 20) Unset)
                    update_data Sample.two_products Hdump)).
    reflexivity.
Defined.

(** X11.  No update changes a SKU: after a PUT or a PATCH, whatever it did,
    the stored records carry the SKUs they carried, in the same order. *)
Theorem update_never_changes_a_sku (product_id : Schema.UUID)
  (payload : Schema.Update_Product.t) (s : fs) :
  Store.skus (Store.collection (snd (Main.update_product product_id payload s))) =
  Store.skus (Store.collection s) /\
  Store.skus (Store.collection (snd (Main.patch_product product_id payload s))) =
  Store.skus (Store.collection s).
Proof.
  assert (Hroute :
    Store.skus (Store.collection (snd (Main.update_product product_id payload s))) =
    Store.skus (Store.collection s)).
  { unfold Main.update_product. rewrite except_raise_state.
    unfold bind, lift.
    destruct (Schema.Update_Product.model_dump_exclude_unset payload)
      as [U|e] eqn:Ed; [|reflexivity].
    destruct (change_product_state (Schema.str product_id) U s)
      as [->|[R [others [Hcol ->]]]]; [reflexivity|].
    rewrite Hcol. unfold Store.skus. simpl. f_equal.
    apply merge_absent. exact (dump_no_sku payload Ed). }
  split; exact Hroute.
Qed.

(** ** Repeating an update, and the keys of the merged record *)

Section UpdateFacts.
Variable V : Type.
Implicit Types (d u : alist V) (k : string) (v : V).

Lemma dict_set_same_value k v d : dict_get k d = Some v -> dict_set k v d = d.
Proof.
  induction d as [|[k' v'] d IH]; simpl; [discriminate|].
  destruct (String.eqb k k') eqn:E.
  - now intros [= ->].
  - intros H. now rewrite IH.
Qed.

Lemma dict_update_absorbed d u :
  (forall k v, In (k, v) u -> dict_get k d = Some v) -> dict_update d u = d.
Proof.
  unfold dict_update.
  induction u as [|[k v] u IH]; intros H; simpl; [reflexivity|].
  rewrite dict_set_same_value by (apply H; now left).
  apply IH. intros k' v' Hin. apply H. now right.
Qed.

Lemma dict_update_twice d u :
  unique_keys (keys u) = true ->
  dict_update (dict_update d u) u = dict_update d u.
Proof.
  intros Hu. apply dict_update_absorbed. intros k v Hin.
  rewrite dict_get_update by assumption.
  now rewrite (in_dict_get k v u Hu Hin).
Qed.

Lemma dict_update_self u :
  unique_keys (keys u) = true -> dict_update u u = u.
Proof.
  intros Hu. apply dict_update_absorbed. intros k v.
  now apply in_dict_get.
Qed.

Lemma keys_dict_set k v d :
  keys (dict_set k v d) =
  keys d ++ match dict_get k d with Some _ => [] | None => [k] end.
Proof.
  unfold keys.
  induction d as [|[k' v'] d IH]; simpl; [reflexivity|].
  destruct (String.eqb k k') eqn:E; simpl.
  - now rewrite app_nil_r.
  - now rewrite IH.
Qed.

End UpdateFacts.

Lemma merge_item_absorbed (R U : pydict) (key : string) (value : json) :
  dict_wf U = true -> In (key, value) U ->
  Service.merge_item (Service.merge R U) (key, value) = Service.merge R U.
Proof.
  intros Hwf Hin.
  pose proof (dict_wf_unique U Hwf) as Hu.
  pose proof (in_dict_get key value U Hu Hin) as Hget.
  destruct value as [|b|z|f|s|l|u]; [reflexivity| | | | | |];
    pose proof (merge_present U R key Hu Hget ltac:(discriminate)) as Hm;
    unfold Service.merge_item, Spec.merged_value in *.
  1-5: destruct (dict_get key R) as [[]|]; now apply dict_set_same_value.
  pose proof (dict_wf_unique u (dict_wf_nested U key u Hwf Hin)) as Hnested.
  destruct (dict_get key R) as [[| | | | | |r]|]; rewrite Hm;
    rewrite ?dict_update_twice, ?dict_update_self by assumption;
    now apply dict_set_same_value.
Qed.

(** Merging the same payload a second time changes nothing. *)
Lemma merge_twice (R U : pydict) :
  dict_wf U = true ->
  Service.merge (Service.merge R U) U = Service.merge R U.
Proof.
  intros Hwf.
  assert (H : forall items,
             (forall item, In item items -> In item U) ->
             Service.merge (Service.merge R U) items = Service.merge R U).
  { induction items as [|[key value] items IH]; intros Hsub; [reflexivity|].
    rewrite merge_cons, merge_item_absorbed.
    - apply IH. intros item Hitem. apply Hsub. now right.
    - exact Hwf.
    - apply Hsub. now left. }
  apply H. auto.
Qed.

Lemma forallb_well_formed_tags (l : list string) :
  forallb well_formed (map JStr l) = true.
Proof. induction l; simpl; auto. Qed.

(** Every dict of a dumped payload has distinct keys. *)
Lemma dump_wf (u : Schema.Update_Product.t) (update_data : pydict) :
  Schema.Update_Product.model_dump_exclude_unset u = Return update_data ->
  dict_wf update_data = true.
Proof.
  intros H. unfold dict_wf. cbn [well_formed].
  apply andb_true_intro. split; [exact (dump_unique_keys u H)|].
  revert H. unfold Schema.Update_Product.model_dump_exclude_unset.
  destruct (Schema.Update_Product.discounted_price u) as [dp|]; try discriminate.
  destruct (Schema.Update_Product.volume_cm3 u) as [vol|]; try discriminate.
  unfold obind. intros H.
  replace update_data with
    (Schema.Update_Product.dump_fields u ++
     [("discounted_price", ser_opt ser_float dp); ("volume_cm3", ser_float vol)])
    by congruence.
  unfold Schema.Update_Product.dump_fields.
  rewrite !forallb_app.
  repeat (apply andb_true_intro; split);
    unfold entry; cbn [snd forallb];
    repeat match goal with
           | |- context [entry_if_set _ _ ?f] =>
               destruct f; cbn [entry_if_set forallb snd]
           | |- context [ser_opt _ ?x] => destruct x; cbn [ser_opt]
           end;
    try reflexivity;
    cbn [well_formed ser_tags andb]; rewrite ?forallb_well_formed_tags;
    reflexivity.
Qed.

(** X12.  PUT and PATCH are idempotent: sending the same request a second
    time gives the same answer as the first and leaves the data file as
    the first left it, whether the request succeeds, is answered 404 or
    fails in the dump of the payload. *)
Theorem update_twice_is_update_once (product_id : Schema.UUID)
  (payload : Schema.Update_Product.t) (s : fs) :
  Main.update_product product_id payload
    (snd (Main.update_product product_id payload s)) =
  Main.update_product product_id payload s /\
  Main.patch_product product_id payload
    (snd (Main.patch_product product_id payload s)) =
  Main.patch_product product_id payload s.
Proof.
  assert (Hroute :
    Main.update_product product_id payload
      (snd (Main.update_product product_id payload s)) =
    Main.update_product product_id payload s).
  { assert (Hempty : Store.collection s = [] ->
                      snd (Main.update_product product_id payload s) = s).
    { intros Hcol. unfold Main.update_product. rewrite except_raise_state.
      unfold bind, lift.
      destruct (Schema.Update_Product.model_dump_exclude_unset payload);
        [|reflexivity].
      now rewrite change_product_empty. }
    destruct s as [[|R others]|].
    - now rewrite Hempty.
    - rewrite update_product_first.
      destruct (Schema.Update_Product.model_dump_exclude_unset payload)
        as [U|e] eqn:Ed; cbn [snd]; rewrite update_product_first, Ed;
        [|reflexivity].
      now rewrite merge_twice by exact (dump_wf payload Ed).
    - now rewrite Hempty. }
  split; exact Hroute.
Qed.

Lemma keys_merge_item (R : pydict) (key : string) (value : json) :
  keys (Service.merge_item R (key, value)) =
  keys R ++ match value, dict_get key R with
            | JNull, _ | _, Some _ => []
            | _, None => [key]
            end.
Proof.
  unfold Service.merge_item.
  destruct value; try (now rewrite app_nil_r); try apply keys_dict_set.
  destruct (dict_get key R) as [[]|] eqn:E;
    rewrite keys_dict_set, E; reflexivity.
Qed.

(** X13.  An update never removes a key of the stored record and never moves
    one: the keys of the record come first, in their order, followed by
    the keys it lacked for which the payload has a non-null value.  In
    particular a null in the payload does not clear a field. *)
Theorem merge_keeps_the_keys (R U : pydict) :
  exists added,
    keys (Service.merge R U) = keys R ++ added /\
    forall key, In key added ->
                dict_get key R = None /\
                exists value, In (key, value) U /\ value <> JNull.
Proof.
  revert R.
  induction U as [|[key value] U IH]; intros R.
  - exists []. split; [now rewrite app_nil_r|contradiction].
  - rewrite merge_cons.
    destruct (IH (Service.merge_item R (key, value))) as [added [Hkeys Hadded]].
    rewrite keys_merge_item in Hkeys.
    destruct (match value, dict_get key R with
              | JNull, _ | _, Some _ => false
              | _, None => true
              end) eqn:Hnew.
    + exists (key :: added). split.
      * rewrite Hkeys, <- app_assoc.
        destruct value; try discriminate;
          destruct (dict_get key R); try discriminate; reflexivity.
      * intros k [<-|Hin].
        -- split.
           ++ destruct value; try discriminate;
                destruct (dict_get key R); try discriminate; reflexivity.
           ++ exists value. split; [now left|].
              intros ->. discriminate.
        -- destruct (Hadded k Hin) as [Hnone [v [Hv Hnn]]]. split.
           ++ destruct (String.eqb k key) eqn:E.
              ** apply String.eqb_eq in E. subst k.
                 rewrite merge_item_same in Hnone; [discriminate|].
                 intros ->. discriminate.
              ** rewrite merge_item_other in Hnone by now apply eqb_false_neq.
                 exact Hnone.
           ++ exists v. split; [now right|exact Hnn].
    + exists added. split.
      * rewrite Hkeys. f_equal.
        destruct value; try discriminate; try (now rewrite app_nil_r);
          destruct (dict_get key R); try discriminate; now rewrite app_nil_r.
      * intros k Hin.
        destruct (Hadded k Hin) as [Hnone [v [Hv Hnn]]]. split.
        -- destruct (String.eqb k key) eqn:E.
           ++ apply String.eqb_eq in E. subst k.
              destruct value.
              ** exact Hnone.
              ** rewrite merge_item_same in Hnone; [discriminate|discriminate].
              ** rewrite merge_item_same in Hnone; [discriminate|discriminate].
              ** rewrite merge_item_same in Hnone; [discriminate|discriminate].
              ** rewrite merge_item_same in Hnone; [discriminate|discriminate].
              ** rewrite merge_item_same in Hnone; [discriminate|discriminate].
              ** rewrite merge_item_same in Hnone; [discriminate|discriminate].
           ++ rewrite merge_item_other in Hnone by now apply eqb_false_neq.
              exact Hnone.
        -- exists v. split; [now right|exact Hnn].
Qed.

(** ** The listing route *)

Section ListingFacts.
Variable lower : string -> string.
Variable strip : string -> string.
Variable sort : bool -> list pydict -> outcome (list pydict).

(** What is assumed of [list.sort]: when it returns, the list holds the
    same records. *)
Hypothesis sort_permutes :
  forall reverse l l', sort reverse l = Return l' -> Permutation l l'.

Lemma slice_length (A : Type) (l : list A) (offset limit : nat) :
  List.length (slice l offset (offset + limit)) =
  Nat.min limit (List.length l - offset).
Proof.
  unfold slice. rewrite length_firstn, length_skipn. f_equal. lia.
Qed.

Lemma slice_in (A : Type) (l : list A) (start stop : nat) (x : A) :
  In x (slice l start stop) -> In x l.
Proof.
  unfold slice. intros H.
  rewrite <- (firstn_skipn start l). apply in_or_app. right.
  rewrite <- (firstn_skipn (stop - start) (skipn start l)).
  apply in_or_app. now left.
Qed.

Lemma lowered_name_raises (p : pydict) (e : exn) :
  Main.lowered_name lower p = Raise e -> e = AttributeError.
Proof.
  unfold Main.lowered_name.
  destruct (dict_get "name" p) as [[]|]; congruence.
Qed.

Lemma filter_by_name_kept (link : string) (dep kept : list pydict) :
  Main.filter_by_name lower link dep = Return kept ->
  kept =
  filter (fun p => match Main.lowered_name lower p with
                   | Return n => contains link n
                   | Raise _ => false
                   end) dep /\
  Forall (fun p => exists n, Main.lowered_name lower p = Return n) dep.
Proof.
  revert kept.
  induction dep as [|p dep IH]; intros kept; simpl.
  - intros [= <-]. split; [reflexivity|constructor].
  - destruct (Main.lowered_name lower p) as [n|e] eqn:En; [|discriminate].
    simpl.
    destruct (Main.filter_by_name lower link dep) as [kept'|e];
      [|discriminate].
    simpl. intros [= <-].
    destruct (IH kept' eq_refl) as [-> Hall].
    split; [reflexivity|].
    constructor; [now exists n|exact Hall].
Qed.

Lemma filter_by_name_returns (link : string) (dep : list pydict) :
  Forall (fun p => exists n, Main.lowered_name lower p = Return n) dep ->
  exists kept, Main.filter_by_name lower link dep = Return kept.
Proof.
  induction 1 as [|p dep [n Hn] _ [kept IH]]; simpl.
  - now exists [].
  - rewrite Hn, IH. simpl. eauto.
Qed.

Lemma filter_by_name_raises (link : string) (dep : list pydict) (p : pydict) :
  In p dep ->
  Main.lowered_name lower p = Raise AttributeError ->
  Main.filter_by_name lower link dep = Raise AttributeError.
Proof.
  intros Hin Hp.
  induction dep as [|q dep IH]; [contradiction|]. simpl.
  destruct (Main.lowered_name lower q) as [n|e] eqn:Eq.
  - simpl. destruct Hin as [->|Hin]; [congruence|].
    now rewrite (IH Hin).
  - simpl. f_equal. now apply lowered_name_raises with q.
Qed.

Lemma list_products_unfiltered (dep : list pydict) (order : string)
  (limit offset : nat) :
  Main.list_products lower strip sort dep None false order limit offset =
  Return (JDict [ ("total", JInt (Z.of_nat (List.length dep)));
                  ("items", JList (map JDict (slice dep offset (offset + limit)))) ]).
Proof. reflexivity. Qed.

(** X14.  The page the listing route returns.  [total] counts the selected
    products, not those on the page; the page holds
    [min limit (total - offset)] of them, each a record of the file; and
    without a name to search for, every record of the file is selected. *)
Theorem listing_returns_a_window (dep : list pydict) (name : option string)
  (sort_by_price : bool) (order : string) (limit offset : nat) (page : json) :
  Main.list_products lower strip sort dep name sort_by_price order limit offset =
  Return page ->
  exists selected items,
    page = JDict [ ("total", JInt (Z.of_nat (List.length selected)));
                   ("items", JList (map JDict items)) ] /\
    items = slice selected offset (offset + limit) /\
    List.length items = Nat.min limit (List.length selected - offset) /\
    (List.length selected <= List.length dep)%nat /\
    (forall p, In p selected -> In p dep) /\
    (name = None -> Permutation dep selected).
Proof.
  intros H.
  assert (Hstage : exists chosen,
    (forall p, In p chosen -> In p dep) /\
    (List.length chosen <= List.length dep)%nat /\
    (name = None -> chosen = dep) /\
    obind (if sort_by_price
           then sort (String.eqb order "desc") chosen
           else Return chosen)
      (fun products =>
         Return (JDict [ ("total", JInt (Z.of_nat (List.length products)));
                         ("items",
                          JList (map JDict
                                   (slice products offset (offset + limit)))) ]))
    = Return page).
  { unfold Main.list_products in H.
    destruct name as [[|c rest]|].
    - exists dep. repeat split; auto.
    - cbv zeta in H.
      destruct (Main.filter_by_name lower (lower (strip (String c rest))) dep)
        as [kept|e] eqn:Hkept; [|discriminate].
      destruct (filter_by_name_kept _ _ Hkept) as [Hfilter _].
      destruct kept as [|k kept]; [discriminate|].
      exists (k :: kept). split; [|split; [|split]].
      + intros p Hp. rewrite Hfilter in Hp.
        now apply filter_In in Hp.
      + rewrite Hfilter. apply filter_length_le.
      + discriminate.
      + exact H.
    - exists dep. repeat split; auto. }
  destruct Hstage as [chosen [Hin [Hlen [Hall Hrest]]]].
  assert (Hsorted : exists selected,
    Permutation chosen selected /\
    page = JDict [ ("total", JInt (Z.of_nat (List.length selected)));
                   ("items",
                    JList (map JDict (slice selected offset (offset + limit)))) ]).
  { destruct sort_by_price.
    - destruct (sort (String.eqb order "desc") chosen) as [sorted|e] eqn:Hsort;
        [|discriminate].
      exists sorted. split; [now apply sort_permutes in Hsort|].
      simpl in Hrest. congruence.
    - exists chosen. split; [apply Permutation_refl|].
      simpl in Hrest. congruence. }
  destruct Hsorted as [selected [Hperm ->]].
  exists selected, (slice selected offset (offset + limit)).
  split; [reflexivity|]. split; [reflexivity|].
  split; [apply slice_length|].
  split.
  { apply Nat.le_trans with (List.length chosen); [|exact Hlen].
    apply Nat.eq_le_incl. symmetry. exact (Permutation_length Hperm). }
  split.
  - intros p Hp. apply Hin.
    now apply (Permutation_in p (Permutation_sym Hperm)).
  - intros Hnone. now rewrite <- (Hall Hnone).
Qed.

(** X15.  Search by name.  A page that comes back lists at least one product,
    and the lower-cased name of every product on it contains the
    lower-cased, stripped search text.  When the names of the file are
    strings (or missing) and none contains it, the route answers 404,
    quoting the name as it was sent; a record whose name is not a string
    makes every search fail. *)
Theorem search_by_name_selects_matching (dep : list pydict) (c : ascii)
  (rest : string) (sort_by_price : bool) (order : string) (limit offset : nat) :
  let name := String c rest in
  let link := lower (strip name) in
  let listing :=
    Main.list_products lower strip sort dep (Some name) sort_by_price order
      limit offset in
  (forall total items,
      listing = Return (JDict [ ("total", JInt total);
                                ("items", JList (map JDict items)) ]) ->
      (1 <= total)%Z /\
      forall p, In p items ->
                exists n, Main.lowered_name lower p = Return n /\
                          contains link n = true) /\
  (Forall (fun p => exists n, Main.lowered_name lower p = Return n /\
                              contains link n = false) dep ->
   listing = Raise (HTTPException 404 (Main.no_product_found name))) /\
  (forall p, In p dep -> Main.lowered_name lower p = Raise AttributeError ->
             listing = Raise AttributeError).
Proof.
  cbv zeta. split; [|split].
  - intros total items H.
    unfold Main.list_products in H. cbv zeta in H.
    destruct (Main.filter_by_name lower (lower (strip (String c rest))) dep)
      as [kept|e] eqn:Hkept; [|discriminate].
    destruct (filter_by_name_kept _ _ Hkept) as [Hfilter _].
    destruct kept as [|k kept]; [discriminate|].
    assert (Hsorted : exists sorted,
      Permutation (k :: kept) sorted /\
      total = Z.of_nat (List.length sorted) /\
      items = slice sorted offset (offset + limit)).
    { simpl in H. destruct sort_by_price.
      - destruct (sort (String.eqb order "desc") (k :: kept))
          as [sorted|e] eqn:Hsort; [|discriminate].
        exists sorted. split; [now apply sort_permutes in Hsort|].
        simpl in H. injection H as Htotal Hmap. split; [now symmetry|].
        clear - Hmap. revert Hmap.
        generalize (slice sorted offset (offset + limit)).
        induction items as [|i items IH]; intros [|j l]; simpl;
          try discriminate; auto.
        intros [= -> Hl]. f_equal. now apply IH.
      - exists (k :: kept). split; [apply Permutation_refl|].
        simpl in H. injection H as Htotal Hmap. split; [now symmetry|].
        clear - Hmap. revert Hmap.
        generalize (slice (k :: kept) offset (offset + limit)).
        induction items as [|i items IH]; intros [|j l]; simpl;
          try discriminate; auto.
        intros [= -> Hl]. f_equal. now apply IH. }
    destruct Hsorted as [sorted [Hperm [-> ->]]].
    split.
    + rewrite <- (Permutation_length Hperm). simpl. lia.
    + intros p Hp. apply slice_in in Hp.
      apply (Permutation_in p (Permutation_sym Hperm)) in Hp.
      rewrite Hfilter in Hp. apply filter_In in Hp as [_ Hp].
      destruct (Main.lowered_name lower p) as [n|e]; [|discriminate].
      now exists n.
  - intros Hnone.
    assert (Hkept : Main.filter_by_name lower (lower (strip (String c rest))) dep
                    = Return []).
    { clear - Hnone.
      induction Hnone as [|p dep [n [Hn Hc]] _ IH]; simpl; [reflexivity|].
      now rewrite Hn, IH; simpl; rewrite Hc. }
    unfold Main.list_products. cbv zeta. now rewrite Hkept.
  - intros p Hin Hp.
    unfold Main.list_products. cbv zeta.
    now rewrite (filter_by_name_raises _ _ _ Hin Hp).
Qed.

(** X16.  A search text that is blank once stripped selects every product: on a
    file whose names are strings (or missing) the answer is that of the
    listing without a name, and on an empty file it is 404. *)
Theorem blank_search_lists_everything (dep : list pydict) (c : ascii)
  (rest : string) (sort_by_price : bool) (order : string) (limit offset : nat) :
  lower (strip (String c rest)) = EmptyString ->
  Forall (fun p => exists n, Main.lowered_name lower p = Return n) dep ->
  Main.list_products lower strip sort dep (Some (String c rest)) sort_by_price
    order limit offset =
  match dep with
  | [] => Raise (HTTPException 404 (Main.no_product_found (String c rest)))
  | _ => Main.list_products lower strip sort dep None sort_by_price order
           limit offset
  end.
Proof.
  intros Hblank Hnames.
  assert (Hkept : Main.filter_by_name lower EmptyString dep = Return dep).
  { clear - Hnames.
    induction Hnames as [|p dep [n Hn] _ IH]; simpl; [reflexivity|].
    rewrite Hn, IH. simpl. now destruct n. }
  unfold Main.list_products. cbv zeta. rewrite Hblank, Hkept.
  now destruct dep.
Qed.

End ListingFacts.

Lemma sorted_already_permutes (reverse : bool) (l l' : list pydict) :
  Sample.sorted_already reverse l = Return l' -> Permutation l l'.
Proof.
  unfold Sample.sorted_already. intros [= <-].
  destruct reverse; [apply Permutation_rev|apply Permutation_refl].
Qed.

Lemma listing_returns_a_window_witness :
  let dep := Store.collection Sample.two_products in
  exists page,
    ((forall reverse l l',
         Sample.sorted_already reverse l = Return l' -> Permutation l l') /\
     Main.list_products Sample.ascii_lower Sample.no_strip Sample.sorted_already
       dep None true "desc" 1 1 = Return page) /\
    exists selected items,
      page = JDict [ ("total", JInt (Z.of_nat (List.length selected)));
                     ("items", JList (map JDict items)) ] /\
      items = slice selected 1 (1 + 1) /\
      List.length items = Nat.min 1 (List.length selected - 1) /\
      (List.length selected <= List.length dep)%nat /\
      (forall p, In p selected -> In p dep) /\
      (@None string = None -> Permutation dep selected).
Proof.
  cbv zeta. eexists. split; [split; [exact sorted_already_permutes|reflexivity]|].
  apply (listing_returns_a_window Sample.ascii_lower Sample.no_strip
           Sample.sorted_already sorted_already_permutes (Store.collection Sample.two_products)
           None true "desc" 1 1).
  reflexivity.
Defined.

Lemma search_by_name_selects_matching_witness :
  let dep := [Sample.stored Sample.mouse; Sample.stored Sample.keyboard] in
  let listing name :=
    Main.list_products Sample.ascii_lower Sample.no_strip Sample.sorted_already
      dep (Some name) false "asc" 10 0 in
  (listing "KEY" =
   Return (JDict [ ("total", JInt 1);
                   ("items", JList (map JDict [Sample.stored Sample.keyboard])) ]) /\
   Forall (fun p => exists n,
               Main.lowered_name Sample.ascii_lower p = Return n /\
               contains (Sample.ascii_lower (Sample.no_strip "Cable")) n = false)
     dep /\
   In Sample.misnamed (Sample.misnamed :: dep) /\
   Main.lowered_name Sample.ascii_lower Sample.misnamed = Raise AttributeError) /\
  ((1 <= 1)%Z /\
   forall p, In p [Sample.stored Sample.keyboard] ->
             exists n, Main.lowered_name Sample.ascii_lower p = Return n /\
                       contains (Sample.ascii_lower (Sample.no_strip "KEY")) n
                       = true) /\
  listing "Cable" = Raise (HTTPException 404 (Main.no_product_found "Cable")) /\
  Main.list_products Sample.ascii_lower Sample.no_strip Sample.sorted_already
    (Sample.misnamed :: dep) (Some "KEY") false "asc" 10 0 = Raise AttributeError.
Proof.
  cbv zeta.
  assert (Hnone :
    Forall (fun p => exists n,
                Main.lowered_name Sample.ascii_lower p = Return n /\
                contains (Sample.ascii_lower (Sample.no_strip "Cable")) n = false)
      [Sample.stored Sample.mouse; Sample.stored Sample.keyboard]).
  { repeat constructor; eexists; split; vm_compute; reflexivity. }
  split; [split; [vm_compute; reflexivity|];
          split; [exact Hnone|];
          split; [now left|vm_compute; reflexivity]|].
  split; [|split].
  - apply (proj1 (search_by_name_selects_matching Sample.ascii_lower
                    Sample.no_strip Sample.sorted_already sorted_already_permutes
                    [Sample.stored Sample.mouse; Sample.stored Sample.keyboard]
                    "K" "EY" false "asc" 10 0)).
    vm_compute. reflexivity.
  - apply (proj1 (proj2 (search_by_name_selects_matching Sample.ascii_lower
                    Sample.no_strip Sample.sorted_already sorted_already_permutes
                    [Sample.stored Sample.mouse; Sample.stored Sample.keyboard]
                    "C" "able" false "asc" 10 0))).
    exact Hnone.
  - apply (proj2 (proj2 (search_by_name_selects_matching Sample.ascii_lower
                    Sample.no_strip Sample.sorted_already sorted_already_permutes
                    (Sample.misnamed ::
                     [Sample.stored Sample.mouse; Sample.stored Sample.keyboard])
                    "K" "EY" false "asc" 10 0)) Sample.misnamed).
    + now left.
    + vm_compute. reflexivity.
Defined.

Lemma blank_search_lists_everything_witness :
  let dep := [Sample.stored Sample.mouse; Sample.stored Sample.keyboard] in
  (Sample.ascii_lower (Sample.strip_spaces "  ") = EmptyString /\
   Forall (fun p => exists n, Main.lowered_name Sample.ascii_lower p = Return n)
     dep) /\
  Main.list_products Sample.ascii_lower Sample.strip_spaces
    Sample.sorted_already dep (Some "  ") false "asc" 10 0 =
  Main.list_products Sample.ascii_lower Sample.strip_spaces
    Sample.sorted_already dep None false "asc" 10 0.
Proof.
  cbv zeta.
  assert (Hnames :
    Forall (fun p => exists n, Main.lowered_name Sample.ascii_lower p = Return n)
      [Sample.stored Sample.mouse; Sample.stored Sample.keyboard]).
  { repeat constructor; eexists; vm_compute; reflexivity. }
  split; [split; [vm_compute; reflexivity|exact Hnames]|].
  apply (@blank_search_lists_everything Sample.ascii_lower Sample.strip_spaces
           Sample.sorted_already
           [Sample.stored Sample.mouse; Sample.stored Sample.keyboard]
           " " " " false "asc" 10 0).
  - vm_compute. reflexivity.
  - exact Hnames.
Defined.

(** ** The dashboard's paging loop over the listing route *)

Lemma map_JDict_inj (a b : list pydict) : map JDict a = map JDict b -> a = b.
Proof.
  revert b. induction a as [|x a IH]; intros [|y b]; simpl;
    try discriminate; auto.
  intros [= -> H]. f_equal. now apply IH.
Qed.

Lemma firstn_add_skipn (A : Type) (l : list A) (a b : nat) :
  firstn (a + b) l = firstn a l ++ firstn b (skipn a l).
Proof.
  revert l. induction a as [|a IH]; intros l; [reflexivity|].
  destruct l as [|x l]; simpl.
  - now rewrite firstn_nil.
  - now rewrite IH.
Qed.

Section DashboardFacts.
Variable lower : string -> string.
Variable strip : string -> string.
Variable sort : bool -> list pydict -> outcome (list pydict).
Variable dep : list pydict.
Variable get : nat -> nat -> outcome Dashboard.response.

Hypothesis served : Store.served_by lower strip sort dep get.

Lemma fetch_from (fuel offset : nat) :
  Dashboard.fetch get fuel (map JDict (firstn offset dep)) offset =
  if Nat.ltb ((List.length dep - offset) / Dashboard.limit) fuel
  then Some (map JDict dep)
  else None.
Proof.
  revert offset. induction fuel as [|fuel IH]; intros offset; [reflexivity|].
  cbn [Dashboard.fetch].
  destruct (served Dashboard.limit offset) as [page [Hpage ->]].
  rewrite list_products_unfiltered in Hpage. injection Hpage as <-.
  cbn [Dashboard.status_code Dashboard.body].
  change (200 =? 200) with true. cbv iota.
  change (dict_get "items" _) with
    (Some (JList (map JDict
                    (slice dep offset (offset + Dashboard.limit))))).
  cbn [iterate]. rewrite length_map, slice_length, <- map_app.
  assert (Hlimit : Dashboard.limit <> 0%nat) by discriminate.
  destruct (Nat.ltb_spec (Nat.min Dashboard.limit (List.length dep - offset))
              Dashboard.limit) as [Hlast|Hmore].
  - rewrite Nat.div_small by lia.
    replace (slice dep offset (offset + Dashboard.limit)) with (skipn offset dep).
    + now rewrite firstn_skipn.
    + unfold slice. symmetry. apply firstn_all2. rewrite length_skipn. lia.
  - unfold slice.
    replace (offset + Dashboard.limit - offset)%nat with Dashboard.limit by lia.
    rewrite <- firstn_add_skipn, IH.
    replace (List.length dep - offset)%nat
      with ((List.length dep - (offset + Dashboard.limit)) + 1 * Dashboard.limit)%nat
      by lia.
    rewrite Nat.div_add by exact Hlimit.
    now rewrite Nat.add_1_r.
Qed.

(** X17.  The dashboard collects the whole collection: when the listing route
    answers its requests over the records [dep], the loop makes
    [len(dep) // 100 + 1] requests and returns every record once, in the
    order of the file; a multiple of 100 records costs one more
    request, for an empty last page. *)
Theorem dashboard_collects_every_product (fuel : nat) :
  Dashboard.get_all_products get fuel =
  if Nat.ltb (List.length dep / Dashboard.limit) fuel
  then Some (map JDict dep)
  else None.
Proof.
  unfold Dashboard.get_all_products.
  change (@nil json) with (map JDict (firstn 0 dep)).
  now rewrite fetch_from, Nat.sub_0_r.
Qed.

End DashboardFacts.

Lemma pages_of_served (dep : list pydict) :
  Store.served_by Sample.ascii_lower Sample.no_strip Sample.sorted_already dep
    (Sample.pages_of dep).
Proof. intros limit offset. eexists. split; reflexivity. Qed.

Lemma dashboard_collects_every_product_witness :
  let dep := Store.collection Sample.two_products in
  Store.served_by Sample.ascii_lower Sample.no_strip Sample.sorted_already dep
    (Sample.pages_of dep) /\
  Dashboard.get_all_products (Sample.pages_of dep) 1 = Some (map JDict dep).
Proof.
  cbv zeta. split; [apply pages_of_served|].
  apply (dashboard_collects_every_product
           (pages_of_served (Store.collection Sample.two_products)) 1).
Defined.

(** ** The validators of the schema *)

Lemma contains_sep_cons (sep c : ascii) (s : string) :
  contains (String sep EmptyString) (String c s) =
  Ascii.eqb c sep || contains (String sep EmptyString) s.
Proof.
  cbn [contains String.prefix].
  destruct (ascii_dec sep c) as [->|Hne].
  - rewrite Ascii.eqb_refl. now destruct s.
  - destruct (Ascii.eqb c sep) eqn:E; [|reflexivity].
    apply Ascii.eqb_eq in E. now subst.
Qed.

Lemma split_without_sep (sep : ascii) (s : string) :
  contains (String sep EmptyString) s = false -> split sep s = [s].
Proof.
  induction s as [|c s IH]; [reflexivity|].
  rewrite contains_sep_cons. intros H.
  apply orb_false_elim in H as [Hc Hs].
  simpl. now rewrite Hc, (IH Hs).
Qed.

Lemma concat_split (sep : ascii) (s : string) :
  String.concat (String sep EmptyString) (split sep s) = s.
Proof.
  induction s as [|c s IH]; [reflexivity|]. simpl.
  pose proof (split_not_nil sep s) as Hne.
  destruct (Ascii.eqb c sep) eqn:E.
  - apply Ascii.eqb_eq in E. subst c.
    destruct (split sep s) as [|piece pieces]; [contradiction|].
    simpl in *. now rewrite IH.
  - destruct (split sep s) as [|piece pieces]; [contradiction|].
    destruct pieces; simpl in *; now rewrite <- IH.
Qed.

Lemma split_pieces_without_sep (sep : ascii) (s : string) :
  Forall (fun piece => contains (String sep EmptyString) piece = false)
    (split sep s).
Proof.
  induction s as [|c s IH]; simpl.
  - now repeat constructor.
  - destruct (Ascii.eqb c sep) eqn:E.
    + constructor; [reflexivity|exact IH].
    + destruct (split sep s) as [|piece pieces].
      * repeat constructor. rewrite contains_sep_cons, E. reflexivity.
      * inversion IH as [|? ? Hpiece Hpieces]; subst.
        constructor; [|exact Hpieces].
        now rewrite contains_sep_cons, E.
Qed.

Lemma split_length (sep : ascii) (s : string) :
  List.length (split sep s) = S (Store.occurrences sep s).
Proof.
  induction s as [|c s IH]; [reflexivity|]. simpl.
  destruct (Ascii.eqb c sep).
  - simpl. now rewrite IH.
  - pose proof (split_not_nil sep s) as Hne.
    destruct (split sep s) as [|piece pieces]; [contradiction|].
    simpl in *. exact IH.
Qed.

(** X18.  The e-mail validators of [Seller] and [UpdateSeller] decide on the
    text after the last [@] alone: an address [local@domain] is handed
    back unchanged when [domain] is, letter for letter, an entry of the
    allow-list, and rejected with a [ValueError] naming [domain]
    otherwise; what stands before the last [@] plays no part. *)
Theorem seller_email_decided_by_domain (local domain : string) :
  contains "@" domain = false ->
  let value := (local ++ String "@" domain)%string in
  Schema.Seller.validate_seller_email_domain value =
  (if set_mem domain Schema.allowed_domains
   then Return value
   else Raise (ValueError (Schema.domain_message domain))) /\
  Schema.UpdateSeller.validate_seller_email_domain value =
  Schema.Seller.validate_seller_email_domain value.
Proof.
  intros Hdomain. cbv zeta.
  unfold Schema.Seller.validate_seller_email_domain,
    Schema.UpdateSeller.validate_seller_email_domain,
    Schema.Seller.allowed_domains, Schema.UpdateSeller.allowed_domains.
  rewrite domain_of_address, (split_without_sep "@" domain Hdomain).
  unfold item_last. cbn [List.last].
  split; [|reflexivity].
  now destruct (set_mem domain Schema.allowed_domains).
Qed.

Lemma seller_email_decided_by_domain_witness :
  contains "@" "Example.com" = false /\
  Schema.Seller.validate_seller_email_domain "a@b@Example.com" =
  Raise (ValueError (Schema.domain_message "Example.com")) /\
  Schema.UpdateSeller.validate_seller_email_domain "a@b@Example.com" =
  Schema.Seller.validate_seller_email_domain "a@b@Example.com".
Proof.
  split; [reflexivity|].
  apply (seller_email_decided_by_domain "a@b" "Example.com"). reflexivity.
Defined.

(** X19.  The [tags] validators cut a string at its commas: a string with [n]
    commas gives [n + 1] tags (an empty string gives one empty tag, never
    an empty list); before stripping, the pieces hold no comma and joined
    by commas they give the string back.  A value that is not a string is
    handed on as it is. *)
Theorem split_tags_cuts_at_commas (strip : string -> string) (v : json) :
  Schema.Update_Product.split_tags strip v = Schema.Product.split_tags strip v /\
  ((forall s, v <> JStr s) -> Schema.Product.split_tags strip v = v) /\
  (forall s, v = JStr s ->
     exists pieces,
       Schema.Product.split_tags strip v =
       JList (map (fun tag => JStr (strip tag)) pieces) /\
       List.length pieces = S (Store.occurrences "," s) /\
       String.concat "," pieces = s /\
       Forall (fun piece => contains "," piece = false) pieces).
Proof.
  split; [reflexivity|]. split.
  - intros Hv. destruct v; try reflexivity. now destruct (Hv s).
  - intros s ->. exists (split "," s).
    split; [reflexivity|].
    split; [apply split_length|].
    split; [apply concat_split|apply split_pieces_without_sep].
Qed.

Lemma split_tags_cuts_at_commas_witness :
  exists pieces,
    Schema.Product.split_tags Sample.strip_spaces (JStr "usb, cable ,") =
    JList (map (fun tag => JStr (Sample.strip_spaces tag)) pieces) /\
    List.length pieces = S (Store.occurrences "," "usb, cable ,") /\
    String.concat "," pieces = "usb, cable ,"%string /\
    Forall (fun piece => contains "," piece = false) pieces.
Proof.
  apply (proj2 (proj2 (split_tags_cuts_at_commas Sample.strip_spaces
                         (JStr "usb, cable ,"))) "usb, cable ,").
  reflexivity.
Defined.

(** ** Updates that cannot be applied *)

(** X20.  A payload whose [dimensions_cm] is null, or which sets a discount
    while its [price] is null, can not be applied: the dump of the
    payload raises in a computed property, the routes do not catch it
    (it is no [ValueError]), and the file stays as it was.  So every
    update that succeeds carries dimensions. *)
Theorem update_without_dimensions_fails (product_id : Schema.UUID)
  (payload : Schema.Update_Product.t) (s : fs) :
  Schema.Update_Product.dimensions_cm payload = None \/
  (Schema.Update_Product.price payload = None /\
   attr None (Schema.Update_Product.discount_percent payload) <> None) ->
  exists e,
    (e = TypeError \/ e = AttributeError) /\
    Schema.Update_Product.model_dump_exclude_unset payload = Raise e /\
    Main.update_product product_id payload s = (Raise e, s) /\
    Main.patch_product product_id payload s = (Raise e, s).
Proof.
  intros H.
  assert (Hdump : exists e,
    (e = TypeError \/ e = AttributeError) /\
    Schema.Update_Product.model_dump_exclude_unset payload = Raise e).
  { unfold Schema.Update_Product.model_dump_exclude_unset,
      Schema.Update_Product.discounted_price,
      Schema.Update_Product.volume_cm3.
    destruct H as [Hdim|[Hprice Hdiscount]].
    - rewrite Hdim.
      destruct (attr None (Schema.Update_Product.discount_percent payload));
        [destruct (Schema.Update_Product.price payload)|]; simpl; eauto.
    - rewrite Hprice.
      destruct (attr None (Schema.Update_Product.discount_percent payload));
        [|contradiction]. simpl. eauto. }
  destruct Hdump as [e [He Hdump]]. exists e.
  split; [exact He|]. split; [exact Hdump|].
  assert (Hroute : Main.update_product product_id payload s = (Raise e, s)).
  { unfold Main.update_product, except_ValueError, bind, lift.
    rewrite Hdump. now destruct He as [->| ->]. }
  split; exact Hroute.
Qed.

Lemma update_without_dimensions_fails_witness :
  let payload :=
    {| Schema.Update_Product.id := Sample.id_a;
       Schema.Update_Product.name := Some "Mouse"%string;
       Schema.Update_Product.description := Unset;
       Schema.Update_Product.category := None;
       Schema.Update_Product.brand := Unset;
       Schema.Update_Product.price := Some (of_Z 25);
       Schema.Update_Product.currency := None;
       Schema.Update_Product.discount_percent := Unset;
       Schema.Update_Product.stock := None;
       Schema.Update_Product.is_active := Unset;
       Schema.Update_Product.rating := Unset;
       Schema.Update_Product.tags := Unset;
       Schema.Update_Product.image_url := Unset;
       Schema.Update_Product.dimensions_cm := None;
       Schema.Update_Product.seller := None;
       Schema.Update_Product.created_at := Given None |} in
  Schema.Update_Product.validated payload = true /\
  Schema.Update_Product.dimensions_cm payload = None /\
  exists e,
    (e = TypeError \/ e = AttributeError) /\
    Schema.Update_Product.model_dump_exclude_unset payload = Raise e /\
    Main.update_product Sample.id_a payload Sample.two_products =
    (Raise e, Sample.two_products) /\
    Main.patch_product Sample.id_a payload Sample.two_products =
    (Raise e, Sample.two_products).
Proof.
  cbv zeta. split; [vm_compute; reflexivity|]. split; [reflexivity|].
  apply update_without_dimensions_fails. left. reflexivity.
Defined.

(** ** Create, then delete *)

(** X21.  Deleting the product a create has just stored, by the identifier the
    store assigned, gives back the collection as it was before the
    create; the answer of the delete carries the stored record. *)
Theorem create_then_delete_restores (product : Schema.Product.t)
  (uuid4 : Schema.UUID) (utcnow : string) (s s' : fs) (response : pydict) :
  Main.create_product product uuid4 utcnow s = (Return response, s') ->
  Forall (Store.other_id (Schema.str uuid4)) (Store.collection s) ->
  Main.delete_product uuid4 s' =
  (Return (Service.deleted_response (Store.created_record product uuid4 utcnow)),
   Some (Store.collection s)).
Proof.
  rewrite create_product_cases. cbv zeta.
  destruct (Service.any_same_sku (Store.collection s)
              (Store.created_record product uuid4 utcnow)) as [[|]|e];
    try discriminate.
  intros [= _ <-] Hfresh.
  unfold Main.delete_product, except_ValueError.
  rewrite (@remove_product_pops (Schema.str uuid4) _ (Store.collection s) []
             (Store.created_record product uuid4 utcnow));
    [now rewrite app_nil_r|reflexivity|exact Hfresh|].
  exists (JStr (Schema.str uuid4)). split; [apply created_record_id|].
  simpl. apply String.eqb_refl.
Qed.

Lemma create_then_delete_restores_witness :
  exists response s',
    (Main.create_product Sample.cable Sample.id_c "2024-05-01T10:00:00"
       Sample.two_products = (Return response, s') /\
     Forall (Store.other_id (Schema.str Sample.id_c))
       (Store.collection Sample.two_products)) /\
    Main.delete_product Sample.id_c s' =
    (Return (Service.deleted_response
               (Store.created_record Sample.cable Sample.id_c
                  "2024-05-01T10:00:00")),
     Some (Store.collection Sample.two_products)).
Proof.
  assert (Hfresh : Forall (Store.other_id (Schema.str Sample.id_c))
                     (Store.collection Sample.two_products)).
  { repeat constructor; eexists; split; vm_compute; reflexivity. }
  eexists. eexists.
  split; [split; [vm_compute; reflexivity|exact Hfresh]|].
  eapply create_then_delete_restores; [vm_compute; reflexivity|exact Hfresh].
Defined.

(** ** The number of records *)

(** X22.  A request changes the number of stored records by one at most: a
    POST adds one record or none, a DELETE takes one out or none, and a
    PUT, a PATCH or a GET leaves the count as it was. *)
Theorem request_changes_one_record_at_most (s : fs) (r : Store.request) :
  let before := List.length (Store.collection s) in
  let after := List.length (Store.collection (Store.serve s r)) in
  match r with
  | Store.POST _ _ _ => after = before \/ after = S before
  | Store.DELETE _ => after = before \/ S after = before
  | _ => after = before
  end.
Proof.
  cbv zeta.
  assert (Hupdate : forall product_id payload,
    List.length (Store.collection
                   (snd (Main.update_product product_id payload s))) =
    List.length (Store.collection s)).
  { intros product_id payload.
    unfold Main.update_product. rewrite except_raise_state.
    unfold bind, lift.
    destruct (Schema.Update_Product.model_dump_exclude_unset payload) as [U|e];
      [|reflexivity].
    destruct (change_product_state (Schema.str product_id) U s)
      as [->|[R [others [Hcol ->]]]]; [reflexivity|].
    now rewrite Hcol. }
  destruct r as [product uuid4 utcnow|product_id|product_id payload
                 |product_id payload|product_id]; cbn [Store.serve].
  - rewrite create_product_cases. cbv zeta.
    destruct (Service.any_same_sku (Store.collection s)
                (Store.created_record product uuid4 utcnow)) as [[|]|e];
      cbn [snd Store.collection]; auto.
    right. rewrite length_app. simpl. lia.
  - unfold Main.delete_product. rewrite except_raise_state.
    unfold Service.remove_product, Service.get_all_products, bind.
    rewrite load_products_collection.
    destruct (remove_loop_state (Schema.str product_id) (Store.collection s)
                (enumerate (Store.collection s)) s) as [->|[idx [x [Hnth ->]]]];
      [now left|].
    right. cbn [Store.collection].
    assert (Hidx : (idx < List.length (Store.collection s))%nat).
    { apply nth_error_Some. congruence. }
    rewrite length_app, length_firstn, length_skipn. lia.
  - apply Hupdate.
  - apply Hupdate.
  - unfold Main.get_product_by_id, Service.get_all_products, bind.
    now rewrite load_products_collection, find_product_state.
Qed.
